(** * Authorization and tenant isolation of the library-management backend

    A shallow embedding of the Express middleware and handlers of
    [routes/auth.js] (checkPermission, checkPermissions, checkAdmin,
    checkAdminOrStaff, authenticate*, ensureOwnerDataIsolation, the user
    login and the logout handler), of [routes/ownerAuth.js] (owner login,
    owner logout, authenticateOwner, ensureOwnerDataIsolation) and of the
    two gates mounted in [routes/branches.js].

    A middleware [(req, res, next) => ...] is a function from the request
    to an [Outcome]: it calls [next()] with the (possibly mutated) request,
    it sends a response, or it throws a TypeError by reading a property of
    [undefined].  A handler returns the response it sends together with the
    session it leaves behind. *)

From Stdlib Require Import Bool List String Ascii ZArith Lia.
Import ListNotations.
Open Scope string_scope.

(** ** JavaScript values and strings *)

(** The scalar values a row column or a session field can hold. *)
Inductive JsVal : Type :=
| JUndefined
| JNull
| JNum (n : Z)
| JStr (s : string).

(** ToBoolean on those values. *)
Definition truthy (v : JsVal) : bool :=
  match v with
  | JUndefined | JNull => false
  | JNum n => negb (n =? 0)%Z
  | JStr s => negb (s =? "")
  end.

(** A string taken from the body of a request: [None] is a missing field. *)
Definition truthy_field (f : option string) : bool :=
  match f with
  | None => false
  | Some s => negb (s =? "")
  end.

Definition field_value (f : option string) : string :=
  match f with
  | None => ""
  | Some s => s
  end.

Definition is_lower (c : ascii) : bool :=
  let n := nat_of_ascii c in (97 <=? n)%nat && (n <=? 122)%nat.

Definition is_upper (c : ascii) : bool :=
  let n := nat_of_ascii c in (65 <=? n)%nat && (n <=? 90)%nat.

Definition upper_ascii (c : ascii) : ascii :=
  if is_lower c then ascii_of_nat (nat_of_ascii c - 32) else c.

Definition lower_ascii (c : ascii) : ascii :=
  if is_upper c then ascii_of_nat (nat_of_ascii c + 32) else c.

(** [String.prototype.toUpperCase] on the ASCII letters; bytes above 127
    are left alone (no character outside a-z upper-cases to A, N or D, so
    the comparison with ['AND'] below is the one the engine makes). *)
Fixpoint toUpperCase (s : string) : string :=
  match s with
  | EmptyString => EmptyString
  | String c r => String (upper_ascii c) (toUpperCase r)
  end.

Fixpoint toLowerCase (s : string) : string :=
  match s with
  | EmptyString => EmptyString
  | String c r => String (lower_ascii c) (toLowerCase r)
  end.

(** [String.prototype.includes]: [sub] occurs somewhere in [s]. *)
Fixpoint str_includes (s sub : string) : bool :=
  prefix sub s ||
  match s with
  | EmptyString => false
  | String _ r => str_includes r sub
  end.

(** [Array.prototype.includes] on an array of strings. *)
Definition includes (l : list string) (p : string) : bool :=
  existsb (String.eqb p) l.

(** [Array.prototype.every] and [Array.prototype.some]. *)
Definition every {A} (l : list A) (f : A -> bool) : bool := forallb f l.
Definition some {A} (l : list A) (f : A -> bool) : bool := existsb f l.

(** ** Session, request and response *)

(** [req.session.owner], as the owner login and the refresh route write it. *)
Record Owner : Type := mkOwner {
  owner_id : JsVal;
  owner_libraryCode : string;
  owner_libraryName : string;
  owner_ownerName : string;
  owner_ownerEmail : string;
  owner_role : string
}.

(** [req.session.user]; [permissions] may be missing, whence the
    [|| []] of the gates. *)
Record User : Type := mkUser {
  user_id : JsVal;
  user_username : string;
  user_role : string;
  user_permissions : option (list string)
}.

(** [req.session.student]. *)
Record Student : Type := mkStudent {
  student_id : JsVal
}.

(** The three slots of [req.session]. *)
Record Session : Type := mkSession {
  sess_owner : option Owner;
  sess_user : option User;
  sess_student : option Student
}.

Definition emptySession : Session := mkSession None None None.

(** The parts of [req] the middleware read and write. *)
Record Request : Type := mkRequest {
  req_session : option Session;
  req_owner : option Owner;
  req_student : option Student;
  req_libraryId : JsVal
}.

Definition set_libraryId (req : Request) (v : JsVal) : Request :=
  mkRequest (req_session req) (req_owner req) (req_student req) v.

Definition set_owner (req : Request) (o : Owner) : Request :=
  mkRequest (req_session req) (Some o) (req_student req) (req_libraryId req).

Definition set_student (req : Request) (s : Student) : Request :=
  mkRequest (req_session req) (req_owner req) (Some s) (req_libraryId req).

(** What [res] has been told: the status, the JSON body and the cookies
    cleared by [res.clearCookie]. *)
Record Response : Type := mkResponse {
  res_status : nat;
  res_message : string;
  res_error : option string;
  res_owner : option Owner;
  res_user : option User;
  res_clearedCookies : list string
}.

(** [res.status(code).json({ message })]. *)
Definition json_message (code : nat) (msg : string) : Response :=
  mkResponse code msg None None None [].

(** [res.status(code).json({ message, error })]. *)
Definition json_error (code : nat) (msg err : string) : Response :=
  mkResponse code msg (Some err) None None [].

Inductive Outcome : Type :=
| Next (req : Request)
| Respond (r : Response)
| TypeError.

Definition Middleware : Type := Request -> Outcome.

(** Express runs the second middleware only when the first called [next()]. *)
Definition andThen (m1 m2 : Middleware) : Middleware :=
  fun req =>
    match m1 req with
    | Next req' => m2 req'
    | other => other
    end.

Definition admits (o : Outcome) : bool :=
  match o with
  | Next _ => true
  | _ => false
  end.

Definition Unauthenticated (o : Outcome) : Prop :=
  exists r, o = Respond r /\ res_status r = 401.

Definition Forbidden (o : Outcome) : Prop :=
  exists r, o = Respond r /\ res_status r = 403.

(** A call that may throw (a rejected promise inside [try]): the message of
    the error, or the value. *)
Inductive Result (A : Type) : Type :=
| Throws (message : string)
| Returns (a : A).
Arguments Throws {A} message.
Arguments Returns {A} a.

(** ** routes/auth.js *)

Module Auth.

Definition unauthorized : Response :=
  json_message 401 "Unauthorized - Please log in".

(** [req.session.user.permissions || []]. *)
Definition userPermissions (u : User) : list string :=
  match user_permissions u with
  | Some l => l
  | None => []
  end.

(** [checkPermission(permission)]. *)
Definition checkPermission (permission : string) : Middleware :=
  fun req =>
    match req_session req with
    | None => TypeError
    | Some s =>
        let fallthrough :=
          match sess_owner s with
          | Some _ => Next req
          | None => Respond unauthorized
          end in
        match sess_user s with
        | Some u =>
            if (user_role u =? "admin") || (user_role u =? "staff") then Next req
            else if includes (userPermissions u) permission then Next req
            else fallthrough
        | None => fallthrough
        end
    end.

(** The [hasPermission] variable of [checkPermissions]. *)
Definition hasPermission (permissions : list string) (logic : string)
    (held : list string) : bool :=
  if toUpperCase logic =? "AND"
  then every permissions (fun p => includes held p)
  else some permissions (fun p => includes held p).

(** [checkPermissions(permissions, logic)]. *)
Definition checkPermissions (permissions : list string) (logic : string)
    : Middleware :=
  fun req =>
    match req_session req with
    | None => TypeError
    | Some s =>
        match sess_owner s with
        | Some _ => Next req
        | None =>
            match sess_user s with
            | None => Respond unauthorized
            | Some u =>
                if user_role u =? "admin" then Next req
                else if negb (hasPermission permissions logic (userPermissions u))
                then Respond (json_message 403 "Forbidden - Insufficient permissions")
                else Next req
            end
        end
    end.

(** The default parameters [permissions = []] and [logic = 'OR']. *)
Definition checkPermissions1 (permissions : list string) : Middleware :=
  checkPermissions permissions "OR".

Definition checkPermissions0 : Middleware := checkPermissions [] "OR".

Definition checkAdmin : Middleware :=
  fun req =>
    match req_session req with
    | None => TypeError
    | Some s =>
        match sess_owner s with
        | Some _ => Next req
        | None =>
            match sess_user s with
            | None => Respond unauthorized
            | Some u =>
                if negb (user_role u =? "admin")
                then Respond (json_message 403 "Forbidden: Admin access required")
                else Next req
            end
        end
    end.

Definition checkAdminOrStaff : Middleware :=
  fun req =>
    match req_session req with
    | None => TypeError
    | Some s =>
        match sess_owner s with
        | Some _ => Next req
        | None =>
            match sess_user s with
            | None => Respond unauthorized
            | Some u =>
                if (user_role u =? "admin") || (user_role u =? "staff") then Next req
                else Respond (json_message 403 "Forbidden: Admin or Staff access required")
            end
        end
    end.

(** [req.session && req.session.owner && req.session.owner.id], and the
    owner it found. *)
Definition session_owner_with_id (req : Request) : option Owner :=
  match req_session req with
  | None => None
  | Some s =>
      match sess_owner s with
      | None => None
      | Some o => if truthy (owner_id o) then Some o else None
      end
  end.

Definition session_user_with_id (req : Request) : option User :=
  match req_session req with
  | None => None
  | Some s =>
      match sess_user s with
      | None => None
      | Some u => if truthy (user_id u) then Some u else None
      end
  end.

Definition session_student_with_id (req : Request) : option Student :=
  match req_session req with
  | None => None
  | Some s =>
      match sess_student s with
      | None => None
      | Some st => if truthy (student_id st) then Some st else None
      end
  end.

Definition authenticateOwner : Middleware :=
  fun req =>
    match session_owner_with_id req with
    | Some o => Next (set_libraryId (set_owner req o) (owner_id o))
    | None => Respond (json_message 401 "Unauthorized: Owner access required.")
    end.

Definition authenticateStudent : Middleware :=
  fun req =>
    match session_student_with_id req with
    | Some st => Next (set_student req st)
    | None => Respond (json_message 401 "Unauthorized: Student access required.")
    end.

Definition authenticateUser : Middleware :=
  fun req =>
    match session_user_with_id req with
    | Some _ => Next req
    | None => Respond unauthorized
    end.

Definition authenticateAny : Middleware :=
  fun req =>
    match session_owner_with_id req, session_user_with_id req,
          session_student_with_id req with
    | None, None, None =>
        Respond (json_message 401 "Unauthorized: Please log in.")
    | _, _, _ => Next req
    end.

(** Runs after [authenticateOwner]: it reads [req.owner]. *)
Definition ensureOwnerDataIsolation : Middleware :=
  fun req =>
    match req_owner req with
    | None => Respond (json_message 401 "Unauthorized. Owner context is missing.")
    | Some o => Next (set_libraryId req (owner_id o))
    end.

(** A row of [SELECT id, username, password, role, permissions FROM users]. *)
Record UserRow : Type := mkUserRow {
  row_id : JsVal;
  row_username : string;
  row_password : string;
  row_role : string;
  row_permissions : option (list string)
}.

(** The object literal [{ id, username, role, permissions || [] }]. *)
Definition user_of_row (r : UserRow) : User :=
  mkUser (row_id r) (row_username r) (row_role r)
         (Some (match row_permissions r with Some l => l | None => [] end)).

Definition set_session_user (s : Session) (u : User) : Session :=
  mkSession (sess_owner s) (Some u) (sess_student s).

Section Router.

(** [pool.query('SELECT ... FROM users WHERE username = $1', [username])]. *)
Variable users_by_username : string -> Result (list UserRow).

(** [router.post('/login', ...)]: the response and [req.session] after. *)
Definition login (username password : option string) (s : Session)
    : Response * Session :=
  if negb (truthy_field username) || negb (truthy_field password)
  then (json_message 400 "Username and password are required", s)
  else
    match users_by_username (field_value username) with
    | Throws msg => (json_error 500 "Server error during login" msg, s)
    | Returns [] => (json_message 401 "Invalid credentials", s)
    | Returns (user :: _) =>
        let isPasswordValid := field_value password =? row_password user in
        if negb isPasswordValid
        then (json_message 401 "Invalid credentials", s)
        else
          (mkResponse 200 "Login successful" None None
                      (Some (user_of_row user)) [],
           set_session_user s (user_of_row user))
    end.

(** [router.get('/logout', ...)]: [err] is what [req.session.destroy]
    hands to its callback. *)
Definition logout (err : option string) : Response :=
  match err with
  | Some _ => json_message 500 "Could not log out, please try again."
  | None => mkResponse 200 "Logout successful" None None None ["connect.sid"]
  end.

End Router.

End Auth.


(** ** routes/ownerAuth.js *)

Module OwnerAuth.

(** [isDbAuthError(err)]; an error is its message. *)
Definition isDbAuthError (err : string) : bool :=
  if err =? "" then false
  else
    let msg := toLowerCase err in
    str_includes msg "sasl" || str_includes msg "scram" ||
    str_includes msg "server signature" ||
    str_includes msg "authentication failed" || str_includes msg "28p01".

Definition handleDbAuthError (err : string) : Response :=
  json_error 500
    "Database authentication failed. Check DB credentials and SSL settings in environment variables. If using DATABASE_URL on a platform like Render, ensure SSL is enabled."
    err.

(** A row of [SELECT id, library_code, library_name, owner_name,
    owner_email, password, status FROM libraries]. *)
Record LibraryRow : Type := mkLibraryRow {
  row_id : JsVal;
  row_library_code : string;
  row_library_name : string;
  row_owner_name : string;
  row_owner_email : string;
  row_password : string;
  row_status : string
}.

(** The object literal written to [req.session.owner] and sent back. *)
Definition owner_of_row (r : LibraryRow) : Owner :=
  mkOwner (row_id r) (row_library_code r) (row_library_name r)
          (row_owner_name r) (row_owner_email r) "owner".

Definition set_session_owner (s : Session) (o : Owner) : Session :=
  mkSession (Some o) (sess_user s) (sess_student s).

Section Router.

(** [pool.query('SELECT ... FROM libraries WHERE owner_phone = $1', [phone])]. *)
Variable libraries_by_phone : string -> Result (list LibraryRow).

(** [bcrypt.compare(password, hash)]. *)
Variable bcrypt_compare : string -> string -> Result bool.

(** The [catch] block of the login handler. *)
Definition login_catch (err : string) : Response :=
  if isDbAuthError err then handleDbAuthError err
  else json_error 500 "Server error during login" err.

(** [router.post('/login', ...)]: the response and [req.session] after. *)
Definition login (phone password : option string) (s : Session)
    : Response * Session :=
  if negb (truthy_field phone) || negb (truthy_field password)
  then (json_message 400 "Phone number and password are required", s)
  else
    match libraries_by_phone (field_value phone) with
    | Throws err => (login_catch err, s)
    | Returns [] => (json_message 401 "Invalid credentials", s)
    | Returns (library :: _) =>
        if negb (row_status library =? "active")
        then (json_message 401
                "Library account is suspended. Please contact support.", s)
        else
          match bcrypt_compare (field_value password) (row_password library) with
          | Throws err => (login_catch err, s)
          | Returns isPasswordValid =>
              if negb isPasswordValid
              then (json_message 401 "Invalid credentials", s)
              else
                (mkResponse 200 "Login successful" None
                            (Some (owner_of_row library)) None [],
                 set_session_owner s (owner_of_row library))
          end
    end.

(** [router.post('/logout', ...)]: [err] is what [req.session.destroy]
    hands to its callback. *)
Definition logout (err : option string) : Response :=
  match err with
  | Some _ => json_message 500 "Could not log out, please try again."
  | None => mkResponse 200 "Logout successful" None None None ["connect.sid"]
  end.

End Router.

Definition authenticateOwner : Middleware :=
  fun req =>
    match Auth.session_owner_with_id req with
    | Some _ => Next req
    | None =>
        match req_session req with
        | None => TypeError
        | Some _ =>
            Respond (json_message 401
                       "Unauthorized - Please log in as a library owner")
        end
    end.

Definition ensureOwnerDataIsolation : Middleware :=
  fun req =>
    match req_session req with
    | None =>
        Respond (json_message 401 "Unauthorized - Please log in as library owner")
    | Some s =>
        match sess_owner s with
        | None =>
            Respond (json_message 401
                       "Unauthorized - Please log in as library owner")
        | Some o => Next (set_libraryId req (owner_id o))
        end
    end.

End OwnerAuth.

(** ** routes/branches.js *)

Module Branches.

(** The gate of [router.get('/')]. *)
Definition read_gate : Middleware :=
  Auth.checkPermissions ["manage_branches"; "manage_library_students"] "OR".

(** The gate of [router.post('/')], [router.put('/:id')] and
    [router.delete('/:id')]. *)
Definition write_gate : Middleware :=
  Auth.checkPermissions1 ["manage_branches"].

End Branches.

(** ** Regular expressions of the validators *)

Module Regex.

(** The fragment the three validators of ownerAuth.js are written in: a
    character class repeated between [min] and [max] times ([None] is no
    upper bound), concatenation, and what derivatives need besides. *)
Inductive Regex : Type :=
| Empty
| Eps
| Rep (p : ascii -> bool) (min : nat) (max : option nat)
| Cat (r1 r2 : Regex)
| Alt (r1 r2 : Regex).

Fixpoint nullable (r : Regex) : bool :=
  match r with
  | Empty => false
  | Eps => true
  | Rep _ min _ => (min =? 0)%nat
  | Cat r1 r2 => nullable r1 && nullable r2
  | Alt r1 r2 => nullable r1 || nullable r2
  end.

Definition room (max : option nat) : bool :=
  match max with
  | Some 0 => false
  | _ => true
  end.

Definition less (max : option nat) : option nat :=
  match max with
  | Some n => Some (pred n)
  | None => None
  end.

Fixpoint deriv (c : ascii) (r : Regex) : Regex :=
  match r with
  | Empty => Empty
  | Eps => Empty
  | Rep p min max =>
      if p c && room max then Rep p (pred min) (less max) else Empty
  | Cat r1 r2 =>
      Alt (Cat (deriv c r1) r2) (if nullable r1 then deriv c r2 else Empty)
  | Alt r1 r2 => Alt (deriv c r1) (deriv c r2)
  end.

(** [/^r$/.test(s)]: the whole of [s] matches [r]. *)
Fixpoint test (r : Regex) (s : string) : bool :=
  match s with
  | EmptyString => nullable r
  | String c s' => test (deriv c r) s'
  end.

Definition is_digit (c : ascii) : bool :=
  let n := nat_of_ascii c in (48 <=? n)%nat && (n <=? 57)%nat.

(** [\s] on the ASCII characters: tab, line feed, vertical tab, form feed,
    carriage return and space. *)
Definition is_space (c : ascii) : bool :=
  let n := nat_of_ascii c in
  ((9 <=? n)%nat && (n <=? 13)%nat) || (n =? 32)%nat.

(** [[^\s@]]. *)
Definition not_space_at (c : ascii) : bool :=
  negb (is_space c || Ascii.eqb c "@").

(** [[A-Z0-9]]. *)
Definition upper_or_digit (c : ascii) : bool := is_upper c || is_digit c.

Definition one (p : ascii -> bool) : Regex := Rep p 1 (Some 1).
Definition plus (p : ascii -> bool) : Regex := Rep p 1 None.

(** [/^[^\s@]+@[^\s@]+\.[^\s@]+$/]. *)
Definition emailRegex : Regex :=
  Cat (plus not_space_at)
      (Cat (one (Ascii.eqb "@"))
           (Cat (plus not_space_at)
                (Cat (one (Ascii.eqb ".")) (plus not_space_at)))).

(** [/^[0-9]{10}$/]. *)
Definition phoneRegex : Regex := Rep is_digit 10 (Some 10).

(** [/^[A-Z0-9]{3,20}$/]. *)
Definition codeRegex : Regex := Rep upper_or_digit 3 (Some 20).

End Regex.

(** Every character of [s] is in the class [p]. *)
Fixpoint all_chars (p : ascii -> bool) (s : string) : bool :=
  match s with
  | EmptyString => true
  | String c r => p c && all_chars p r
  end.

(** The strings on which the byte-wise [toUpperCase], [length] and [\s] are
    those of the engine: the ones made of ASCII characters. *)
Definition ascii_only (s : string) : bool :=
  all_chars (fun c => (nat_of_ascii c <? 128)%nat) s.

(** ** routes/ownerAuth.js: registration, code check and status *)

Module OwnerRoutes.

(** [req.body] of the registration. *)
Record RegisterBody : Type := mkRegisterBody {
  ownerName : option string;
  ownerEmail : option string;
  ownerPhone : option string;
  libraryName : option string;
  password : option string;
  confirmPassword : option string;
  libraryCode : option string
}.

(** The parameters of the INSERT, [$1] to [$11]; dates are milliseconds. *)
Record InsertArgs : Type := mkInsertArgs {
  ins_library_code : string;
  ins_library_name : string;
  ins_owner_name : string;
  ins_owner_email : string;
  ins_owner_phone : string;
  ins_password : string;
  ins_subscription_plan : string;
  ins_subscription_start_date : Z;
  ins_subscription_end_date : Z;
  ins_is_trial : bool;
  ins_is_subscription_active : bool
}.

(** The columns of the row the INSERT returns that the handler reads. *)
Record NewLibrary : Type := mkNewLibrary {
  new_id : JsVal;
  new_library_code : string;
  new_library_name : string;
  new_owner_name : string;
  new_owner_email : string;
  new_created_at : Z
}.

(** The [library] object of the 201 response. *)
Record RegisteredLibrary : Type := mkRegisteredLibrary {
  reg_id : JsVal;
  reg_libraryCode : string;
  reg_libraryName : string;
  reg_ownerName : string;
  reg_ownerEmail : string;
  reg_createdAt : Z
}.

(** [res.status(201).json({ message: 'Library registered successfully',
    library })], or any other response. *)
Inductive RegisterResponse : Type :=
| Registered (library : RegisteredLibrary)
| RegisterFailed (r : Response).

Definition register_status (r : RegisterResponse) : nat :=
  match r with
  | Registered _ => 201
  | RegisterFailed r => res_status r
  end.

(** [res.json({ available, code })], or any other response. *)
Inductive CheckCodeResponse : Type :=
| CodeChecked (available : bool) (code : string)
| CheckFailed (r : Response).

Section Router.

(** [SELECT id FROM libraries WHERE owner_phone = $1]. *)
Variable ids_by_phone : string -> Result (list JsVal).

(** [SELECT id FROM libraries WHERE library_code = $1]. *)
Variable ids_by_code : string -> Result (list JsVal).

(** [SELECT generate_library_code() as code]: the code of its one row. *)
Variable generate_library_code : Result string.

(** [bcrypt.hash(password, rounds)]. *)
Variable bcrypt_hash : string -> nat -> Result string.

(** The two [new Date()] and [d.setDate(d.getDate() + days)]. *)
Variable start_now end_now : Z.
Variable setDate_plus : Z -> Z -> Z.

(** The INSERT ... RETURNING and its one row. *)
Variable insert_library : InsertArgs -> Result NewLibrary.

(** The [catch] block of the registration. *)
Definition register_catch (err : string) : Response :=
  if OwnerAuth.isDbAuthError err then OwnerAuth.handleDbAuthError err
  else json_error 500 "Server error during registration" err.

(** "Generate or validate library code": the final code, or the response
    that ends the request. *)
Definition finalLibraryCode (libraryCode : option string)
    : Response + string :=
  if truthy_field libraryCode then
    let upperCaseCode := toUpperCase (field_value libraryCode) in
    if negb (Regex.test Regex.codeRegex upperCaseCode)
    then inl (json_message 400
                "Library code must be 3-20 characters long and contain only letters and numbers")
    else
      match ids_by_code upperCaseCode with
      | Throws err => inl (register_catch err)
      | Returns rows =>
          if (0 <? List.length rows)%nat
          then inl (json_message 400 "Library code already taken")
          else inr upperCaseCode
      end
  else
    match generate_library_code with
    | Throws err => inl (register_catch err)
    | Returns code => inr code
    end.

(** [router.post('/register', ...)]: the response, and the parameters of
    the INSERT when the handler sent one. *)
Definition register (body : RegisterBody)
    : RegisterResponse * option InsertArgs :=
  if negb (truthy_field (ownerName body)) || negb (truthy_field (ownerEmail body))
     || negb (truthy_field (ownerPhone body))
     || negb (truthy_field (libraryName body))
     || negb (truthy_field (password body))
     || negb (truthy_field (confirmPassword body))
  then (RegisterFailed (json_message 400 "All fields are required"), None)
  else if negb (field_value (password body) =? field_value (confirmPassword body))
  then (RegisterFailed (json_message 400 "Passwords do not match"), None)
  else if (String.length (field_value (password body)) <? 6)%nat
  then (RegisterFailed
          (json_message 400 "Password must be at least 6 characters long"), None)
  else if negb (Regex.test Regex.emailRegex (field_value (ownerEmail body)))
  then (RegisterFailed (json_message 400 "Invalid email format"), None)
  else if negb (Regex.test Regex.phoneRegex (field_value (ownerPhone body)))
  then (RegisterFailed (json_message 400 "Phone number must be 10 digits"), None)
  else
    match ids_by_phone (field_value (ownerPhone body)) with
    | Throws err => (RegisterFailed (register_catch err), None)
    | Returns phoneRows =>
        if (0 <? List.length phoneRows)%nat
        then (RegisterFailed
                (json_message 400 "Phone number already registered"), None)
        else
          match finalLibraryCode (libraryCode body) with
          | inl r => (RegisterFailed r, None)
          | inr code =>
              match bcrypt_hash (field_value (password body)) 10 with
              | Throws err => (RegisterFailed (register_catch err), None)
              | Returns hashedPassword =>
                  let args :=
                    mkInsertArgs code (field_value (libraryName body))
                      (field_value (ownerName body))
                      (field_value (ownerEmail body))
                      (field_value (ownerPhone body)) hashedPassword
                      "free_trial" start_now (setDate_plus 7 end_now)
                      true true in
                  match insert_library args with
                  | Throws err =>
                      (RegisterFailed (register_catch err), Some args)
                  | Returns newLibrary =>
                      (Registered
                         (mkRegisteredLibrary
                            (new_id newLibrary) (new_library_code newLibrary)
                            (new_library_name newLibrary)
                            (new_owner_name newLibrary)
                            (new_owner_email newLibrary)
                            (new_created_at newLibrary)),
                       Some args)
                  end
              end
          end
    end.

(** The [catch] block of the code check. *)
Definition check_code_catch (err : string) : Response :=
  if OwnerAuth.isDbAuthError err then OwnerAuth.handleDbAuthError err
  else json_error 500 "Server error" err.

(** [router.get('/check-code/:code', ...)]. *)
Definition check_code (code : string) : CheckCodeResponse :=
  let upperCaseCode := toUpperCase code in
  if negb (Regex.test Regex.codeRegex upperCaseCode)
  then CheckFailed
         (json_message 400
            "Library code must be 3-20 characters, letters and numbers only.")
  else
    match ids_by_code upperCaseCode with
    | Throws err => CheckFailed (check_code_catch err)
    | Returns rows => CodeChecked (List.length rows =? 0)%nat upperCaseCode
    end.

End Router.

(** [router.get('/status', ...)]: [isAuthenticated] and [owner]. *)
Definition status (req : Request) : bool * option Owner :=
  match req_session req with
  | None => (false, None)
  | Some s =>
      match sess_owner s with
      | Some o => (true, Some o)
      | None => (false, None)
      end
  end.

End OwnerRoutes.

(** ** routes/auth.js: status and refresh *)

Module AuthRoutes.

(** Reading a property of a session Owner: the six keys the login and the
    refresh write, [undefined] for any other key. *)
Definition owner_get (o : Owner) (key : string) : JsVal :=
  if key =? "id" then owner_id o
  else if key =? "libraryCode" then JStr (owner_libraryCode o)
  else if key =? "libraryName" then JStr (owner_libraryName o)
  else if key =? "ownerName" then JStr (owner_ownerName o)
  else if key =? "ownerEmail" then JStr (owner_ownerEmail o)
  else if key =? "role" then JStr (owner_role o)
  else JUndefined.

(** The [owner] object of the status response. *)
Record StatusOwner : Type := mkStatusOwner {
  so_id : JsVal;
  so_name : JsVal;
  so_email : JsVal;
  so_library_code : JsVal
}.

(** The body of the status response; [null] and a missing key are [None]. *)
Record StatusBody : Type := mkStatusBody {
  st_isAuthenticated : bool;
  st_userType : option string;
  st_owner : option StatusOwner;
  st_user : option User
}.

(** [router.get('/status', ...)]. *)
Definition status (req : Request) : StatusBody :=
  match req_session req with
  | None => mkStatusBody false None None None
  | Some s =>
      match sess_owner s with
      | Some o =>
          mkStatusBody true (Some "owner")
            (Some (mkStatusOwner (owner_get o "id") (owner_get o "name")
                     (owner_get o "email") (owner_get o "library_code")))
            None
      | None =>
          match sess_user s with
          | Some u =>
              mkStatusBody true (Some "user") None
                (Some (mkUser (user_id u) (user_username u) (user_role u)
                         (Some (Auth.userPermissions u))))
          | None => mkStatusBody false None None None
          end
      end
  end.

(** A row of [SELECT id, library_code, library_name, owner_name,
    owner_email FROM libraries WHERE id = $1]. *)
Record LibraryInfo : Type := mkLibraryInfo {
  li_id : JsVal;
  li_library_code : string;
  li_library_name : string;
  li_owner_name : string;
  li_owner_email : string
}.

(** A row of [SELECT id, username, role, permissions FROM users
    WHERE id = $1]. *)
Record UserInfo : Type := mkUserInfo {
  ui_id : JsVal;
  ui_username : string;
  ui_role : string;
  ui_permissions : option (list string)
}.

Definition owner_of_info (library : LibraryInfo) : Owner :=
  mkOwner (li_id library) (li_library_code library) (li_library_name library)
          (li_owner_name library) (li_owner_email library) "owner".

Definition user_of_info (user : UserInfo) : User :=
  mkUser (ui_id user) (ui_username user) (ui_role user)
         (Some (match ui_permissions user with Some l => l | None => [] end)).

Definition internal_error : Response :=
  json_message 500 "Internal Server Error".

Section Router.

Variable library_by_id : JsVal -> Result (list LibraryInfo).
Variable user_by_id : JsVal -> Result (list UserInfo).

(** The user branch of the refresh handler. *)
Definition refresh_user (s : Session) : Response * Session :=
  match sess_user s with
  | None => (json_message 400 "No active session to refresh.", s)
  | Some u =>
      if truthy (user_id u) then
        match user_by_id (user_id u) with
        | Throws _ => (internal_error, s)
        | Returns [] => (json_message 404 "User not found", s)
        | Returns (user :: _) =>
            (mkResponse 200 "Session refreshed" None None
                        (Some (user_of_info user)) [],
             Auth.set_session_user s (user_of_info user))
        end
      else (json_message 400 "No active session to refresh.", s)
  end.

(** The handler of [router.get('/refresh', authenticateAny, ...)]: the
    response and [req.session] after. *)
Definition refresh_handler (s : Session) : Response * Session :=
  match sess_owner s with
  | None => refresh_user s
  | Some o =>
      if truthy (owner_id o) then
        match library_by_id (owner_id o) with
        | Throws _ => (internal_error, s)
        | Returns [] => (json_message 404 "Library owner not found", s)
        | Returns (library :: _) =>
            (mkResponse 200 "Session refreshed" None
                        (Some (owner_of_info library)) None [],
             OwnerAuth.set_session_owner s (owner_of_info library))
        end
      else refresh_user s
  end.

(** The route: [authenticateAny], then the handler. *)
Definition refresh (req : Request) : Response * option Session :=
  match Auth.authenticateAny req with
  | Next req' =>
      match req_session req' with
      | Some s =>
          let (r, s') := refresh_handler s in (r, Some s')
      | None => (internal_error, None)
      end
  | Respond r => (r, req_session req)
  | TypeError => (internal_error, req_session req)
  end.

End Router.

End AuthRoutes.

(** ** routes/branches.js: the four routes *)

Module BranchRoutes.

(** A row of the [branches] table: the columns the statements of the
    router name. *)
Record Branch : Type := mkBranch {
  branch_id : JsVal;
  branch_name : JsVal;
  branch_code : JsVal;
  branch_library_id : JsVal
}.

(** What a handler of the router sends. *)
Inductive BranchResponse : Type :=
| BranchList (branches : list Branch)
| BranchRow (status : nat) (row : Branch)
| BranchMessage (r : Response).

(** A route [router.verb(path, gate, handler)]: the handler runs on the
    request the gate passed on; a gate that throws leaves the request to
    the error handler of the application. *)
Inductive RouteResult (A : Type) : Type :=
| Handled (a : A)
| Rejected (r : Response)
| Uncaught.
Arguments Handled {A} a.
Arguments Rejected {A} r.
Arguments Uncaught {A}.

Definition route {A} (gate : Middleware) (handler : Request -> A)
    (req : Request) : RouteResult A :=
  match gate req with
  | Next req' => Handled (handler req')
  | Respond r => Rejected r
  | TypeError => Uncaught
  end.

(** [value || null] on a field of the body. *)
Definition or_null (f : option string) : JsVal :=
  if truthy_field f then JStr (field_value f) else JNull.

(** A field of the body as a query parameter. *)
Definition param (f : option string) : JsVal :=
  match f with
  | Some s => JStr s
  | None => JUndefined
  end.

Definition server_error (err : string) : Response :=
  json_error 500 "Server error" err.

Section Router.

(** [SELECT * FROM branches WHERE library_id = $1 ORDER BY name]. *)
Variable select_branches : JsVal -> Result (list Branch).

(** [INSERT INTO branches (name, code, library_id) VALUES ($1, $2, $3)
    RETURNING *] and its one row. *)
Variable insert_branch : JsVal -> JsVal -> JsVal -> Result Branch.

(** [UPDATE branches SET name = $1, code = $2 WHERE id = $3 AND
    library_id = $4 RETURNING *]. *)
Variable update_branch : JsVal -> JsVal -> string -> JsVal
                         -> Result (list Branch).

(** [DELETE FROM branches WHERE id = $1 AND library_id = $2 RETURNING *]. *)
Variable delete_branch : string -> JsVal -> Result (list Branch).

Definition get_handler (req : Request) : BranchResponse :=
  match select_branches (req_libraryId req) with
  | Throws err => BranchMessage (server_error err)
  | Returns rows => BranchList rows
  end.

Definition post_handler (name code : option string) (req : Request)
    : BranchResponse :=
  if negb (truthy_field name)
  then BranchMessage (json_message 400 "Branch name is required")
  else
    match insert_branch (param name) (or_null code) (req_libraryId req) with
    | Throws err => BranchMessage (server_error err)
    | Returns row => BranchRow 201 row
    end.

Definition put_handler (id : string) (name code : option string)
    (req : Request) : BranchResponse :=
  match update_branch (param name) (or_null code) id (req_libraryId req) with
  | Throws err => BranchMessage (server_error err)
  | Returns [] => BranchMessage (json_message 404 "Branch not found")
  | Returns (row :: _) => BranchRow 200 row
  end.

Definition delete_handler (id : string) (req : Request) : BranchResponse :=
  match delete_branch id (req_libraryId req) with
  | Throws err => BranchMessage (server_error err)
  | Returns [] => BranchMessage (json_message 404 "Branch not found")
  | Returns (_ :: _) => BranchMessage (json_message 200 "Branch deleted")
  end.

(** [router.get('/')], [router.post('/')], [router.put('/:id')] and
    [router.delete('/:id')]. *)
Definition get_branches : Request -> RouteResult BranchResponse :=
  route Branches.read_gate get_handler.

Definition post_branch (name code : option string)
    : Request -> RouteResult BranchResponse :=
  route Branches.write_gate (post_handler name code).

Definition put_branch (id : string) (name code : option string)
    : Request -> RouteResult BranchResponse :=
  route Branches.write_gate (put_handler id name code).

Definition delete_branch_route (id : string)
    : Request -> RouteResult BranchResponse :=
  route Branches.write_gate (delete_handler id).

End Router.

End BranchRoutes.

(** ** Vocabulary of the specification *)

(** The ALL combinator: every required capability is held. *)
Definition held_all (required held : list string) : Prop :=
  forall p, In p required -> In p held.

(** The ANY combinator: at least one required capability is held. *)
Definition held_any (required held : list string) : Prop :=
  exists p, In p required /\ In p held.

(** The session holds an Owner [o] with a truthy id. *)
Definition owner_with_id (req : Request) (o : Owner) : Prop :=
  exists s, req_session req = Some s /\ sess_owner s = Some o /\
            truthy (owner_id o) = true.

(** The two pipelines [authenticateOwner, ensureOwnerDataIsolation]. *)
Definition auth_owner_pipeline : Middleware :=
  andThen Auth.authenticateOwner Auth.ensureOwnerDataIsolation.

Definition ownerAuth_owner_pipeline : Middleware :=
  andThen OwnerAuth.authenticateOwner OwnerAuth.ensureOwnerDataIsolation.

(** The number of Principal variants present in a session. *)
Definition slot_count {A} (slot : option A) : nat :=
  match slot with
  | Some _ => 1
  | None => 0
  end.

Definition active_principals (s : Session) : nat :=
  slot_count (sess_owner s) + slot_count (sess_user s) +
  slot_count (sess_student s).

(** A request that carries the session [s] and nothing else yet. *)
Definition request_of (s : Session) : Request :=
  mkRequest (Some s) None None JUndefined.

(** ** Sample principals and stores *)

Definition sample_owner : Owner :=
  mkOwner (JNum 7) "LIB007" "Central Library" "Asha" "asha@example.org" "owner".

Definition owner_without_id : Owner :=
  mkOwner JUndefined "LIB007" "Central Library" "Asha" "asha@example.org" "owner".

Definition staff_user : User :=
  mkUser (JNum 3) "ravi" "staff" (Some []).

Definition desk_user : User :=
  mkUser (JNum 4) "meena" "other" (Some ["manage_library_students"]).

Definition owner_session : Session := mkSession (Some sample_owner) None None.
Definition headless_session : Session :=
  mkSession (Some owner_without_id) None None.
Definition staff_session : Session := mkSession None (Some staff_user) None.
Definition desk_session : Session := mkSession None (Some desk_user) None.

Definition sample_library : OwnerAuth.LibraryRow :=
  OwnerAuth.mkLibraryRow (JNum 7) "LIB007" "Central Library" "Asha"
                         "asha@example.org" "hash:secret" "active".

Definition suspended_library : OwnerAuth.LibraryRow :=
  OwnerAuth.mkLibraryRow (JNum 8) "LIB008" "East Library" "Binod"
                         "binod@example.org" "hash:secret" "suspended".

(** A [libraries] table with two owners. *)
Definition sample_libraries (phone : string) : Result (list OwnerAuth.LibraryRow) :=
  if phone =? "9000000007" then Returns [sample_library]
  else if phone =? "9000000008" then Returns [suspended_library]
  else Returns [].

(** A stand-in for bcrypt: the hash of [p] is ["hash:" ++ p]. *)
Definition sample_compare (password hash : string) : Result bool :=
  Returns (("hash:" ++ password) =? hash).

Definition sample_user_row : Auth.UserRow :=
  Auth.mkUserRow (JNum 4) "meena" "secret" "other" (Some ["manage_library_students"]).

Definition sample_users (username : string) : Result (list Auth.UserRow) :=
  if username =? "meena" then Returns [sample_user_row] else Returns [].

(** ** Gates and stores used below *)

(** Every gate of auth.js and ownerAuth.js that looks at the session. *)
Definition session_gates (permission : string) (permissions : list string)
    (logic : string) : list Middleware :=
  [ Auth.checkPermission permission;
    Auth.checkPermissions permissions logic;
    Auth.checkAdmin;
    Auth.checkAdminOrStaff;
    Auth.authenticateOwner;
    Auth.authenticateStudent;
    Auth.authenticateUser;
    Auth.authenticateAny;
    OwnerAuth.authenticateOwner;
    OwnerAuth.ensureOwnerDataIsolation ].

(** The gates that decide on role and permissions. *)
Definition authorization_gates (permission : string)
    (permissions : list string) (logic : string) : list Middleware :=
  [ Auth.checkPermission permission;
    Auth.checkPermissions permissions logic;
    Auth.checkAdmin;
    Auth.checkAdminOrStaff ].

Definition sample_student : Student := mkStudent (JNum 21).
Definition student_session : Session := mkSession None None (Some sample_student).

Definition admin_user : User := mkUser (JNum 1) "root" "admin" None.
Definition admin_session : Session := mkSession None (Some admin_user) None.

Definition clerk_user : User := mkUser (JNum 5) "kiran" "other" (Some []).
Definition clerk_session : Session := mkSession None (Some clerk_user) None.

Definition manager_user : User :=
  mkUser (JNum 6) "lata" "other"
         (Some ["manage_branches"; "manage_library_students"]).
Definition manager_session : Session :=
  mkSession None (Some manager_user) None.

(** The five markers [isDbAuthError] looks for. *)
Definition db_auth_markers : list string :=
  ["sasl"; "scram"; "server signature"; "authentication failed"; "28p01"].

(** A [libraries] table whose connection fails during the SCRAM exchange. *)
Definition failing_libraries (phone : string)
    : Result (list OwnerAuth.LibraryRow) :=
  Throws "SASL: SCRAM-SERVER-FINAL-MESSAGE: server signature is missing".

(** A library row whose id is 0. *)
Definition zero_library : OwnerAuth.LibraryRow :=
  OwnerAuth.mkLibraryRow (JNum 0) "LIB000" "Test Library" "Chetan"
                         "chetan@example.org" "hash:secret" "active".

Definition zero_libraries (phone : string)
    : Result (list OwnerAuth.LibraryRow) :=
  Returns [zero_library].

(** The [libraries] and [users] tables as the refresh route reads them;
    the user 'meena' has lost her permission since she logged in. *)
Definition sample_library_by_id (id : JsVal)
    : Result (list AuthRoutes.LibraryInfo) :=
  match id with
  | JNum 7 =>
      Returns [AuthRoutes.mkLibraryInfo (JNum 7) "LIB007" "Central Library"
                 "Asha K" "asha@example.org"]
  | _ => Returns []
  end.

Definition sample_user_by_id (id : JsVal)
    : Result (list AuthRoutes.UserInfo) :=
  match id with
  | JNum 4 => Returns [AuthRoutes.mkUserInfo (JNum 4) "meena" "other" None]
  | JNum 3 => Throws "connection terminated"
  | _ => Returns []
  end.

(** ** What the validators accept *)

Definition within (max : option nat) (n : nat) : Prop :=
  match max with
  | Some m => n <= m
  | None => True
  end.

(** The strings a [Regex.Regex] denotes. *)
Fixpoint Lang (r : Regex.Regex) (s : string) : Prop :=
  match r with
  | Regex.Empty => False
  | Regex.Eps => s = ""
  | Regex.Rep p min max =>
      all_chars p s = true /\ min <= String.length s /\
      within max (String.length s)
  | Regex.Cat r1 r2 => exists s1 s2, s = s1 ++ s2 /\ Lang r1 s1 /\ Lang r2 s2
  | Regex.Alt r1 r2 => Lang r1 s \/ Lang r2 s
  end.

(** A letter or a digit. *)
Definition is_alnum (c : ascii) : bool :=
  is_upper c || is_lower c || Regex.is_digit c.

(** The shape [local@domain.tld] of an address: three non-empty parts
    without white space and without [@]. *)
Definition email_shape (s : string) : Prop :=
  exists local domain tld,
    s = local ++ "@" ++ domain ++ "." ++ tld /\
    local <> "" /\ domain <> "" /\ tld <> "" /\
    all_chars Regex.not_space_at local = true /\
    all_chars Regex.not_space_at domain = true /\
    all_chars Regex.not_space_at tld = true.

(** A body that passes the checks the registration makes before it asks
    the database. *)
Definition sample_body : OwnerRoutes.RegisterBody :=
  OwnerRoutes.mkRegisterBody (Some "Asha") (Some "asha@example.org")
    (Some "9000000007") (Some "Central Library") (Some "secret")
    (Some "secret") (Some "lib007").

Definition no_ids (key : string) : Result (list JsVal) := Returns [].

Definition sample_hash (password : string) (rounds : nat) : Result string :=
  Returns ("hash:" ++ password).

Definition sample_insert (args : OwnerRoutes.InsertArgs)
    : Result OwnerRoutes.NewLibrary :=
  Returns (OwnerRoutes.mkNewLibrary (JNum 7)
             (OwnerRoutes.ins_library_code args)
             (OwnerRoutes.ins_library_name args)
             (OwnerRoutes.ins_owner_name args)
             (OwnerRoutes.ins_owner_email args) 1700000000000).

Definition plus_days (days date : Z) : Z := (date + days * 86400000)%Z.

(** The fields of a registration on which the checks read characters. *)
Definition body_ascii_only (body : OwnerRoutes.RegisterBody) : bool :=
  ascii_only (field_value (OwnerRoutes.password body)) &&
  ascii_only (field_value (OwnerRoutes.ownerEmail body)) &&
  ascii_only (field_value (OwnerRoutes.libraryCode body)).

(** The checks of the registration that need no database: all six
    required fields, equal passwords, six characters, the email and the
    phone pattern. *)
Definition locally_valid (body : OwnerRoutes.RegisterBody) : Prop :=
  truthy_field (OwnerRoutes.ownerName body) = true /\
  truthy_field (OwnerRoutes.ownerEmail body) = true /\
  truthy_field (OwnerRoutes.ownerPhone body) = true /\
  truthy_field (OwnerRoutes.libraryName body) = true /\
  truthy_field (OwnerRoutes.password body) = true /\
  truthy_field (OwnerRoutes.confirmPassword body) = true /\
  field_value (OwnerRoutes.password body)
    = field_value (OwnerRoutes.confirmPassword body) /\
  6 <= String.length (field_value (OwnerRoutes.password body)) /\
  email_shape (field_value (OwnerRoutes.ownerEmail body)) /\
  String.length (field_value (OwnerRoutes.ownerPhone body)) = 10 /\
  all_chars Regex.is_digit (field_value (OwnerRoutes.ownerPhone body)) = true.

(** The INSERT the registration of [sample_body] sends at time 1000. *)
Definition sample_args : OwnerRoutes.InsertArgs :=
  OwnerRoutes.mkInsertArgs "LIB007" "Central Library" "Asha"
    "asha@example.org" "9000000007" "hash:secret" "free_trial"
    1000 604801000 true true.

(** The same registration with a password of five characters. *)
Definition short_password_body : OwnerRoutes.RegisterBody :=
  OwnerRoutes.mkRegisterBody (Some "Asha") (Some "asha@example.org")
    (Some "9000000007") (Some "Central Library") (Some "secre")
    (Some "secre") (Some "lib007").

(** An empty [branches] table. *)
Definition no_branches (libraryId : JsVal)
    : Result (list BranchRoutes.Branch) := Returns [].

Definition first_branch (name code libraryId : JsVal)
    : Result BranchRoutes.Branch :=
  Returns (BranchRoutes.mkBranch (JNum 1) name code libraryId).

Definition no_branch_updated (name code : JsVal) (id : string)
    (libraryId : JsVal) : Result (list BranchRoutes.Branch) := Returns [].

Definition no_branch_deleted (id : string) (libraryId : JsVal)
    : Result (list BranchRoutes.Branch) := Returns [].

(** ** Arrays and strings *)

Lemma includes_In (l : list string) (p : string) :
  includes l p = true <-> In p l.
Proof.
  unfold includes. rewrite existsb_exists. split.
  - intros [x [Hx Heq]]. apply String.eqb_eq in Heq. now subst.
  - intros H. exists p. split; [assumption | apply String.eqb_refl].
Qed.

Lemma every_includes (required held : list string) :
  every required (fun p => includes held p) = true <-> held_all required held.
Proof.
  unfold every, held_all. rewrite forallb_forall.
  split; intros H p Hp; apply includes_In; auto.
Qed.

Lemma some_includes (required held : list string) :
  some required (fun p => includes held p) = true <-> held_any required held.
Proof.
  unfold some, held_any. rewrite existsb_exists.
  split; intros [p [Hp Hin]]; exists p; split; auto; apply includes_In; auto.
Qed.

Lemma hasPermission_AND (required held : list string) (logic : string) :
  toUpperCase logic = "AND" ->
  (Auth.hasPermission required logic held = true <-> held_all required held).
Proof.
  intros H. unfold Auth.hasPermission. rewrite H. simpl.
  apply every_includes.
Qed.

Lemma hasPermission_not_AND (required held : list string) (logic : string) :
  toUpperCase logic <> "AND" ->
  (Auth.hasPermission required logic held = true <-> held_any required held).
Proof.
  intros H. unfold Auth.hasPermission.
  apply String.eqb_neq in H. rewrite H. apply some_includes.
Qed.

Lemma upper_ascii_A (c : ascii) :
  upper_ascii c = "A"%char <-> c = "A"%char \/ c = "a"%char.
Proof.
  split.
  - destruct c as [[] [] [] [] [] [] [] []]; vm_compute; intros H;
      try discriminate H; auto.
  - intros [-> | ->]; reflexivity.
Qed.

Lemma upper_ascii_N (c : ascii) :
  upper_ascii c = "N"%char <-> c = "N"%char \/ c = "n"%char.
Proof.
  split.
  - destruct c as [[] [] [] [] [] [] [] []]; vm_compute; intros H;
      try discriminate H; auto.
  - intros [-> | ->]; reflexivity.
Qed.

Lemma upper_ascii_D (c : ascii) :
  upper_ascii c = "D"%char <-> c = "D"%char \/ c = "d"%char.
Proof.
  split.
  - destruct c as [[] [] [] [] [] [] [] []]; vm_compute; intros H;
      try discriminate H; auto.
  - intros [-> | ->]; reflexivity.
Qed.

(** The strings [checkPermissions] reads as the AND combinator are the
    eight spellings of "and". *)
Lemma toUpperCase_AND (logic : string) :
  toUpperCase logic = "AND" <->
  In logic ["AND"; "ANd"; "AnD"; "And"; "aND"; "aNd"; "anD"; "and"].
Proof.
  split.
  - destruct logic as [|a [|n [|d [|x r]]]]; simpl; try discriminate.
    intros H. injection H as Ha Hn Hd.
    apply upper_ascii_A in Ha. apply upper_ascii_N in Hn.
    apply upper_ascii_D in Hd.
    destruct Ha as [-> | ->], Hn as [-> | ->], Hd as [-> | ->]; tauto.
  - simpl. intros H.
    repeat (destruct H as [<- | H]; [reflexivity |]). contradiction.
Qed.

(** ** The Authorization Gate *)

Ltac gate_at Hs Ho Hu :=
  unfold Auth.checkPermissions, Auth.checkPermission, Auth.checkAdminOrStaff;
  rewrite Hs; try rewrite Ho; try rewrite Hu.

(** What [checkPermissions] does for a User that is not an admin, in a
    session without Owner: admit when [hasPermission], 403 otherwise. *)
Lemma checkPermissions_user (req : Request) (s : Session) (u : User)
    (permissions : list string) (logic : string) :
  req_session req = Some s -> sess_owner s = None -> sess_user s = Some u ->
  user_role u <> "admin" ->
  Auth.checkPermissions permissions logic req =
    if Auth.hasPermission permissions logic (Auth.userPermissions u)
    then Next req
    else Respond (json_message 403 "Forbidden - Insufficient permissions").
Proof.
  intros Hs Ho Hu Hrole. gate_at Hs Ho Hu.
  apply String.eqb_neq in Hrole. rewrite Hrole.
  destruct (Auth.hasPermission _ _ _); reflexivity.
Qed.

Lemma checkPermissions_user_admits (req : Request) (s : Session) (u : User)
    (permissions : list string) (logic : string) :
  req_session req = Some s -> sess_owner s = None -> sess_user s = Some u ->
  user_role u <> "admin" ->
  (Auth.checkPermissions permissions logic req = Next req <->
   Auth.hasPermission permissions logic (Auth.userPermissions u) = true).
Proof.
  intros Hs Ho Hu Hrole.
  rewrite (checkPermissions_user req s u permissions logic Hs Ho Hu Hrole).
  destruct (Auth.hasPermission _ _ _); split; intros H;
    try reflexivity; discriminate H.
Qed.

(** C1: in a session that holds an Owner, checkPermissions admits the
    request for every required capability list and every combinator, and so
    does the single-permission gate checkPermission. *)
Theorem owner_bypass (req : Request) (s : Session) (o : Owner)
    (permissions : list string) (logic permission : string) :
  req_session req = Some s -> sess_owner s = Some o ->
  Auth.checkPermissions permissions logic req = Next req /\
  Auth.checkPermission permission req = Next req.
Proof.
  intros Hs Ho. split.
  - gate_at Hs Ho Ho. reflexivity.
  - gate_at Hs Ho Ho.
    destruct (sess_user s) as [u|]; [|reflexivity].
    destruct ((user_role u =? "admin") || (user_role u =? "staff"));
      [reflexivity|].
    destruct (includes (Auth.userPermissions u) permission); reflexivity.
Qed.

Lemma owner_bypass_witness :
  Auth.checkPermissions ["manage_branches"] "AND" (request_of owner_session)
    = Next (request_of owner_session) /\
  Auth.checkPermission "manage_branches" (request_of owner_session)
    = Next (request_of owner_session).
Proof.
  apply (owner_bypass (request_of owner_session) owner_session sample_owner
           ["manage_branches"] "AND" "manage_branches"); reflexivity.
Defined.

(** C2: for a User whose role is not 'admin', in a session without Owner,
    checkPermissions(required, 'AND') admits iff every required permission
    is in the User's permissions list and checkPermissions(required, 'OR')
    admits iff some required permission is; a User holding only
    manage_library_students passes the branch-read gate and gets 403 from
    the branch-write gate. *)
Theorem nonadmin_and_or (req : Request) (s : Session) (u : User) :
  req_session req = Some s -> sess_owner s = None -> sess_user s = Some u ->
  user_role u <> "admin" ->
  (forall required,
     Auth.checkPermissions required "AND" req = Next req <->
     held_all required (Auth.userPermissions u)) /\
  (forall required,
     Auth.checkPermissions required "OR" req = Next req <->
     held_any required (Auth.userPermissions u)) /\
  (user_permissions u = Some ["manage_library_students"] ->
   Branches.read_gate req = Next req /\
   Branches.write_gate req =
     Respond (json_message 403 "Forbidden - Insufficient permissions") /\
   Forbidden (Branches.write_gate req)).
Proof.
  intros Hs Ho Hu Hrole. split; [|split].
  - intros required.
    rewrite (checkPermissions_user_admits req s u required "AND" Hs Ho Hu Hrole).
    now apply hasPermission_AND.
  - intros required.
    rewrite (checkPermissions_user_admits req s u required "OR" Hs Ho Hu Hrole).
    apply hasPermission_not_AND. discriminate.
  - intros Hp.
    assert (Hw : Branches.write_gate req =
                 Respond (json_message 403 "Forbidden - Insufficient permissions")).
    { unfold Branches.write_gate, Auth.checkPermissions1.
      rewrite (checkPermissions_user req s u ["manage_branches"] "OR" Hs Ho Hu Hrole).
      unfold Auth.userPermissions. rewrite Hp. reflexivity. }
    split; [|split].
    + unfold Branches.read_gate.
      rewrite (checkPermissions_user req s u _ "OR" Hs Ho Hu Hrole).
      unfold Auth.userPermissions. rewrite Hp. reflexivity.
    + exact Hw.
    + rewrite Hw. eexists. split; reflexivity.
Qed.

Lemma nonadmin_and_or_witness :
  Branches.read_gate (request_of desk_session) = Next (request_of desk_session) /\
  Forbidden (Branches.write_gate (request_of desk_session)).
Proof.
  assert (Hrole : user_role desk_user <> "admin") by discriminate.
  destruct (nonadmin_and_or (request_of desk_session) desk_session desk_user
              eq_refl eq_refl eq_refl Hrole) as [_ [_ H]].
  destruct (H eq_refl) as [Hr [_ Hw]]. split; assumption.
Defined.

(** C3, as stated, fails: with an empty required list and the default OR
    combinator (or the string 'ANY') a staff User without Owner is answered
    403, since [[].some(...)] is false. *)
Lemma empty_any_rejects_staff :
  req_session (request_of staff_session) = Some staff_session /\
  sess_owner staff_session = None /\
  sess_user staff_session = Some staff_user /\
  user_role staff_user <> "admin" /\
  admits (Auth.checkPermissions [] "OR" (request_of staff_session)) = false /\
  admits (Auth.checkPermissions [] "ANY" (request_of staff_session)) = false /\
  admits (Auth.checkPermissions0 (request_of staff_session)) = false.
Proof.
  repeat split; try reflexivity. discriminate.
Qed.

(** C3 (amended): for a User whose role is not 'admin', in a session
    without Owner, checkPermissions with an empty required list and any
    combinator other than AND rejects the request with 403 Forbidden. *)
Theorem empty_any_forbidden (req : Request) (s : Session) (u : User)
    (logic : string) :
  req_session req = Some s -> sess_owner s = None -> sess_user s = Some u ->
  user_role u <> "admin" -> toUpperCase logic <> "AND" ->
  Auth.checkPermissions [] logic req =
    Respond (json_message 403 "Forbidden - Insufficient permissions") /\
  Forbidden (Auth.checkPermissions [] logic req) /\
  admits (Auth.checkPermissions [] logic req) = false.
Proof.
  intros Hs Ho Hu Hrole Hlogic.
  assert (H : Auth.checkPermissions [] logic req =
              Respond (json_message 403 "Forbidden - Insufficient permissions")).
  { rewrite (checkPermissions_user req s u [] logic Hs Ho Hu Hrole).
    unfold Auth.hasPermission. apply String.eqb_neq in Hlogic.
    rewrite Hlogic. reflexivity. }
  rewrite H. repeat split. eexists. split; reflexivity.
Qed.

Lemma empty_any_forbidden_witness :
  Forbidden (Auth.checkPermissions [] "ANY" (request_of desk_session)).
Proof.
  assert (Hrole : user_role desk_user <> "admin") by discriminate.
  assert (Hlogic : toUpperCase "ANY" <> "AND") by discriminate.
  exact (proj1 (proj2 (empty_any_forbidden (request_of desk_session)
                         desk_session desk_user "ANY"
                         eq_refl eq_refl eq_refl Hrole Hlogic))).
Defined.

(** C4, as stated, fails in its last part: the staff bypass is not only in
    checkAdminOrStaff.  The single-permission gate checkPermission admits a
    staff User who holds no permission at all. *)
Lemma staff_bypass_in_checkPermission :
  sess_owner staff_session = None /\
  user_role staff_user = "staff" /\
  includes (Auth.userPermissions staff_user) "manage_branches" = false /\
  Auth.checkPermission "manage_branches" (request_of staff_session)
    = Next (request_of staff_session) /\
  Auth.checkPermissions ["manage_branches"] "OR" (request_of staff_session)
    = Respond (json_message 403 "Forbidden - Insufficient permissions").
Proof.
  repeat split.
Qed.

(** C4 (amended): for a staff User in a session without Owner,
    checkPermissions has no bypass: it admits iff the permissions check
    succeeds (every required permission held under AND, some under any other
    combinator) and answers 403 otherwise; the staff bypass exists in
    checkAdminOrStaff and also in the single-permission gate
    checkPermission, both of which admit every such request. *)
Theorem staff_no_bypass (req : Request) (s : Session) (u : User) :
  req_session req = Some s -> sess_owner s = None -> sess_user s = Some u ->
  user_role u = "staff" ->
  (forall required logic,
     (toUpperCase logic = "AND" ->
      (Auth.checkPermissions required logic req = Next req <->
       held_all required (Auth.userPermissions u))) /\
     (toUpperCase logic <> "AND" ->
      (Auth.checkPermissions required logic req = Next req <->
       held_any required (Auth.userPermissions u))) /\
     (Auth.checkPermissions required logic req <> Next req ->
      Forbidden (Auth.checkPermissions required logic req))) /\
  Auth.checkAdminOrStaff req = Next req /\
  (forall permission, Auth.checkPermission permission req = Next req).
Proof.
  intros Hs Ho Hu Hstaff.
  assert (Hrole : user_role u <> "admin") by (rewrite Hstaff; discriminate).
  split; [|split].
  - intros required logic. split; [|split].
    + intros Hl.
      rewrite (checkPermissions_user_admits req s u required logic Hs Ho Hu Hrole).
      now apply hasPermission_AND.
    + intros Hl.
      rewrite (checkPermissions_user_admits req s u required logic Hs Ho Hu Hrole).
      now apply hasPermission_not_AND.
    + rewrite (checkPermissions_user req s u required logic Hs Ho Hu Hrole).
      destruct (Auth.hasPermission _ _ _); intros H.
      * now elim H.
      * eexists. split; reflexivity.
  - gate_at Hs Ho Hu. rewrite Hstaff. reflexivity.
  - intros permission. gate_at Hs Ho Hu. rewrite Hstaff. reflexivity.
Qed.

Lemma staff_no_bypass_witness :
  Forbidden (Auth.checkPermissions ["manage_branches"] "OR"
               (request_of staff_session)) /\
  Auth.checkAdminOrStaff (request_of staff_session)
    = Next (request_of staff_session).
Proof.
  destruct (staff_no_bypass (request_of staff_session) staff_session staff_user
              eq_refl eq_refl eq_refl eq_refl) as [H [Hs _]].
  split; [|exact Hs].
  destruct (H ["manage_branches"] "OR") as [_ [_ Hf]].
  apply Hf. discriminate.
Defined.

(** C5: the code at the failing input.  A User with role 'other' and no
    permission, in a session without Owner, is answered 401 'Unauthorized -
    Please log in' by checkPermission, where checkPermissions answers 403
    for the same session and the same missing permission. *)
Theorem checkPermission_missing_permission_401 :
  sess_owner desk_session = None /\
  sess_user desk_session = Some desk_user /\
  includes (Auth.userPermissions desk_user) "manage_branches" = false /\
  Auth.checkPermission "manage_branches" (request_of desk_session)
    = Respond (json_message 401 "Unauthorized - Please log in") /\
  Auth.checkPermissions ["manage_branches"] "OR" (request_of desk_session)
    = Respond (json_message 403 "Forbidden - Insufficient permissions").
Proof.
  repeat split.
Qed.

(** Every rejection by checkPermission carries status 401: the gate has no
    403 branch. *)
Lemma checkPermission_rejects_401 (permission : string) (req : Request)
    (r : Response) :
  Auth.checkPermission permission req = Respond r -> r = Auth.unauthorized.
Proof.
  unfold Auth.checkPermission.
  destruct (req_session req) as [s|]; [|discriminate].
  destruct (sess_user s) as [u|], (sess_owner s) as [o|];
    repeat match goal with
           | |- context [if ?b then _ else _] => destruct b
           end; intros H; try discriminate H; now injection H as <-.
Qed.

(** C10: for a User whose role is not 'admin', in a session without Owner,
    checkPermissions evaluates the ALL rule (every required permission
    held) exactly when the upper-cased combinator is 'AND', and the ANY rule
    (some required permission held) for every other string, among them
    'ALL', 'ANY' and the default 'OR'. *)
Theorem combinator_AND_only (req : Request) (s : Session) (u : User)
    (required : list string) :
  req_session req = Some s -> sess_owner s = None -> sess_user s = Some u ->
  user_role u <> "admin" ->
  (forall logic, toUpperCase logic = "AND" ->
     (Auth.checkPermissions required logic req = Next req <->
      held_all required (Auth.userPermissions u))) /\
  (forall logic, toUpperCase logic <> "AND" ->
     (Auth.checkPermissions required logic req = Next req <->
      held_any required (Auth.userPermissions u))) /\
  (forall logic, In logic ["ALL"; "ANY"; "OR"; "or"; "any"; "all"; ""] ->
     (Auth.checkPermissions required logic req = Next req <->
      held_any required (Auth.userPermissions u))) /\
  (Auth.checkPermissions1 required req = Next req <->
   held_any required (Auth.userPermissions u)).
Proof.
  intros Hs Ho Hu Hrole.
  assert (Hany : forall logic, toUpperCase logic <> "AND" ->
            (Auth.checkPermissions required logic req = Next req <->
             held_any required (Auth.userPermissions u))).
  { intros logic Hl.
    rewrite (checkPermissions_user_admits req s u required logic Hs Ho Hu Hrole).
    now apply hasPermission_not_AND. }
  split; [|split; [|split]].
  - intros logic Hl.
    rewrite (checkPermissions_user_admits req s u required logic Hs Ho Hu Hrole).
    now apply hasPermission_AND.
  - exact Hany.
  - intros logic Hin. apply Hany. simpl in Hin.
    repeat (destruct Hin as [<- | Hin]; [discriminate |]). contradiction.
  - apply Hany. discriminate.
Qed.

Lemma combinator_AND_only_witness :
  Auth.checkPermissions ["manage_branches"; "manage_library_students"] "ALL"
    (request_of desk_session) = Next (request_of desk_session) /\
  ~ held_all ["manage_branches"; "manage_library_students"]
      (Auth.userPermissions desk_user).
Proof.
  assert (Hrole : user_role desk_user <> "admin") by discriminate.
  destruct (combinator_AND_only (request_of desk_session) desk_session desk_user
              ["manage_branches"; "manage_library_students"]
              eq_refl eq_refl eq_refl Hrole) as [_ [_ [H _]]].
  split.
  - apply (H "ALL"); [simpl; auto|].
    exists "manage_library_students". simpl. auto.
  - intros Hall. specialize (Hall "manage_branches" (or_introl eq_refl)).
    simpl in Hall. destruct Hall as [Hc | []]. discriminate Hc.
Defined.

(** ** The tenant isolation binder *)

Lemma session_owner_with_id_Some (req : Request) (o : Owner) :
  Auth.session_owner_with_id req = Some o <-> owner_with_id req o.
Proof.
  unfold Auth.session_owner_with_id, owner_with_id. split.
  - destruct (req_session req) as [s|]; [|discriminate].
    destruct (sess_owner s) as [o'|] eqn:Ho; [|discriminate].
    destruct (truthy (owner_id o')) eqn:Hid; [|discriminate].
    intros H. injection H as <-. exists s. auto.
  - intros [s [Hs [Ho Hid]]]. rewrite Hs, Ho, Hid. reflexivity.
Qed.

Lemma session_owner_with_id_None (req : Request) :
  Auth.session_owner_with_id req = None <-> ~ exists o, owner_with_id req o.
Proof.
  split.
  - intros H [o Ho]. apply session_owner_with_id_Some in Ho. congruence.
  - intros H. destruct (Auth.session_owner_with_id req) as [o|] eqn:E;
      [|reflexivity].
    elim H. exists o. now apply session_owner_with_id_Some.
Qed.

(** C6, as stated, fails: the binder itself does not look at the id.  An
    Owner whose id is undefined passes ensureOwnerDataIsolation (of
    ownerAuth.js through the session, of auth.js through [req.owner]) and
    reaches the handler with an undefined libraryId. *)
Lemma binder_admits_owner_without_id :
  truthy (owner_id owner_without_id) = false /\
  OwnerAuth.ensureOwnerDataIsolation (request_of headless_session)
    = Next (set_libraryId (request_of headless_session) JUndefined) /\
  Auth.ensureOwnerDataIsolation
    (set_owner (request_of headless_session) owner_without_id)
    = Next (set_libraryId
              (set_owner (request_of headless_session) owner_without_id)
              JUndefined).
Proof.
  repeat split.
Qed.

(** C6 (amended): ensureOwnerDataIsolation rejects with 401 when the owner
    context is absent (the session Owner in ownerAuth.js, [req.owner] in
    auth.js) and otherwise sets [req.libraryId] to the owner's id without
    testing it; the id is tested by authenticateOwner, so that behind the
    pipeline authenticateOwner, ensureOwnerDataIsolation a handler runs
    exactly when the session holds an Owner with a truthy id, and then with
    [req.libraryId] equal to that id. *)
Theorem tenant_binder (req : Request) :
  (forall s o, req_session req = Some s -> sess_owner s = Some o ->
     OwnerAuth.ensureOwnerDataIsolation req
       = Next (set_libraryId req (owner_id o))) /\
  ((forall s, req_session req = Some s -> sess_owner s = None) ->
     Unauthenticated (OwnerAuth.ensureOwnerDataIsolation req)) /\
  (forall o, req_owner req = Some o ->
     Auth.ensureOwnerDataIsolation req = Next (set_libraryId req (owner_id o))) /\
  (req_owner req = None -> Unauthenticated (Auth.ensureOwnerDataIsolation req)) /\
  (forall o, owner_with_id req o ->
     exists req', auth_owner_pipeline req = Next req' /\
                  req_libraryId req' = owner_id o) /\
  (forall o, owner_with_id req o ->
     exists req', ownerAuth_owner_pipeline req = Next req' /\
                  req_libraryId req' = owner_id o) /\
  (forall req', auth_owner_pipeline req = Next req' ->
     truthy (req_libraryId req') = true) /\
  (forall req', ownerAuth_owner_pipeline req = Next req' ->
     truthy (req_libraryId req') = true) /\
  ((~ exists o, owner_with_id req o) ->
     Unauthenticated (auth_owner_pipeline req)) /\
  ((~ exists o, owner_with_id req o) -> req_session req <> None ->
     Unauthenticated (ownerAuth_owner_pipeline req)).
Proof.
  unfold auth_owner_pipeline, ownerAuth_owner_pipeline, andThen,
    Auth.authenticateOwner, OwnerAuth.authenticateOwner.
  repeat match goal with |- _ /\ _ => split end.
  - intros s o Hs Ho. unfold OwnerAuth.ensureOwnerDataIsolation.
    rewrite Hs, Ho. reflexivity.
  - intros H. unfold OwnerAuth.ensureOwnerDataIsolation.
    destruct (req_session req) as [s|]; [rewrite (H s eq_refl)|];
      eexists; split; reflexivity.
  - intros o Ho. unfold Auth.ensureOwnerDataIsolation. rewrite Ho. reflexivity.
  - intros Ho. unfold Auth.ensureOwnerDataIsolation. rewrite Ho.
    eexists. split; reflexivity.
  - intros o Ho. apply session_owner_with_id_Some in Ho. rewrite Ho.
    eexists. split; reflexivity.
  - intros o Ho. pose proof Ho as [s [Hs [Hso _]]].
    apply session_owner_with_id_Some in Ho. rewrite Ho.
    unfold OwnerAuth.ensureOwnerDataIsolation. rewrite Hs, Hso.
    eexists. split; reflexivity.
  - intros req'. destruct (Auth.session_owner_with_id req) as [o|] eqn:E;
      [|discriminate].
    apply session_owner_with_id_Some in E. destruct E as [s [_ [_ Hid]]].
    simpl. intros H. injection H as <-. exact Hid.
  - intros req'. destruct (Auth.session_owner_with_id req) as [o|] eqn:E.
    + apply session_owner_with_id_Some in E. destruct E as [s [Hs [Ho Hid]]].
      unfold OwnerAuth.ensureOwnerDataIsolation. rewrite Hs, Ho.
      intros H. injection H as <-. exact Hid.
    + destruct (req_session req); discriminate.
  - intros H. apply session_owner_with_id_None in H. rewrite H.
    eexists. split; reflexivity.
  - intros H Hs. apply session_owner_with_id_None in H. rewrite H.
    destruct (req_session req); [|now elim Hs].
    eexists. split; reflexivity.
Qed.

Lemma tenant_binder_witness :
  (exists req', auth_owner_pipeline (request_of owner_session) = Next req' /\
                req_libraryId req' = JNum 7) /\
  Unauthenticated (auth_owner_pipeline (request_of headless_session)) /\
  Unauthenticated (ownerAuth_owner_pipeline (request_of headless_session)).
Proof.
  assert (Hw : owner_with_id (request_of owner_session) sample_owner).
  { exists owner_session. repeat split. }
  assert (Hn : ~ exists o, owner_with_id (request_of headless_session) o).
  { intros [o [s [Hs [Ho Hid]]]]. injection Hs as <-. injection Ho as <-.
    discriminate Hid. }
  split; [|split].
  - exact (proj1 (proj2 (proj2 (proj2 (proj2
             (tenant_binder (request_of owner_session))))))
             sample_owner Hw).
  - destruct (tenant_binder (request_of headless_session))
      as [_ [_ [_ [_ [_ [_ [_ [_ [H _]]]]]]]]].
    exact (H Hn).
  - destruct (tenant_binder (request_of headless_session))
      as [_ [_ [_ [_ [_ [_ [_ [_ [_ H]]]]]]]]].
    apply (H Hn). discriminate.
Defined.

(** ** Login and logout *)

Lemma login_catch_status (err : string) :
  res_status (OwnerAuth.login_catch err) = 500.
Proof.
  unfold OwnerAuth.login_catch. destruct (OwnerAuth.isDbAuthError err);
    reflexivity.
Qed.

Section Logins.

Variable libraries_by_phone : string -> Result (list OwnerAuth.LibraryRow).
Variable bcrypt_compare : string -> string -> Result bool.
Variable users_by_username : string -> Result (list Auth.UserRow).

Local Notation "'owner_login'" :=
  (OwnerAuth.login libraries_by_phone bcrypt_compare).
Local Notation "'user_login'" := (Auth.login users_by_username).

(** A successful owner login found a row, checked its secret and wrote the
    Owner built from the row into the owner slot only. *)
Lemma owner_login_success (phone password : option string) (s : Session) :
  res_status (fst (owner_login phone password s)) = 200 ->
  exists library rest,
    libraries_by_phone (field_value phone) = Returns (library :: rest) /\
    bcrypt_compare (field_value password) (OwnerAuth.row_password library)
      = Returns true /\
    snd (owner_login phone password s)
      = mkSession (Some (OwnerAuth.owner_of_row library))
                  (sess_user s) (sess_student s) /\
    res_owner (fst (owner_login phone password s))
      = Some (OwnerAuth.owner_of_row library).
Proof.
  unfold OwnerAuth.login.
  destruct (negb (truthy_field phone) || negb (truthy_field password));
    [discriminate|].
  destruct (libraries_by_phone (field_value phone)) as [err | [|library rest]].
  - simpl. rewrite login_catch_status. discriminate.
  - discriminate.
  - destruct (negb (OwnerAuth.row_status library =? "active")); [discriminate|].
    destruct (bcrypt_compare _ _) as [err | []] eqn:E.
    + simpl. rewrite login_catch_status. discriminate.
    + intros _. exists library, rest. repeat split. exact E.
    + discriminate.
Qed.

Lemma user_login_success (username password : option string) (s : Session) :
  res_status (fst (user_login username password s)) = 200 ->
  exists user rest,
    users_by_username (field_value username) = Returns (user :: rest) /\
    field_value password = Auth.row_password user /\
    snd (user_login username password s)
      = mkSession (sess_owner s) (Some (Auth.user_of_row user))
                  (sess_student s) /\
    res_user (fst (user_login username password s))
      = Some (Auth.user_of_row user).
Proof.
  unfold Auth.login.
  destruct (negb (truthy_field username) || negb (truthy_field password));
    [discriminate|].
  destruct (users_by_username (field_value username)) as [err | [|user rest]];
    try discriminate.
  destruct (field_value password =? Auth.row_password user) eqn:E;
    [|discriminate].
  intros _. exists user, rest. apply String.eqb_eq in E. repeat split.
  exact E.
Qed.

(** A login that does not answer 200 leaves the session as it was. *)
Lemma owner_login_failure (phone password : option string) (s : Session) :
  res_status (fst (owner_login phone password s)) <> 200 ->
  snd (owner_login phone password s) = s.
Proof.
  unfold OwnerAuth.login.
  destruct (negb (truthy_field phone) || negb (truthy_field password));
    [reflexivity|].
  destruct (libraries_by_phone (field_value phone)) as [err | [|library rest]];
    try reflexivity.
  destruct (negb (OwnerAuth.row_status library =? "active")); [reflexivity|].
  destruct (bcrypt_compare _ _) as [err | []]; try reflexivity.
  intros H. now elim H.
Qed.

Lemma user_login_failure (username password : option string) (s : Session) :
  res_status (fst (user_login username password s)) <> 200 ->
  snd (user_login username password s) = s.
Proof.
  unfold Auth.login.
  destruct (negb (truthy_field username) || negb (truthy_field password));
    [reflexivity|].
  destruct (users_by_username (field_value username)) as [err | [|user rest]];
    try reflexivity.
  destruct (negb (field_value password =? Auth.row_password user));
    [reflexivity|].
  intros H. now elim H.
Qed.

(** C7 (amended): a successful login writes the newly constructed
    Principal into its own session slot ([session.owner] for the owner
    login, [session.user] for the user login), replacing a prior Principal
    of the same kind and leaving the other slots as they were; exactly one
    Principal is active afterwards when the other slots were empty. *)
Theorem login_writes_own_slot (phone username password : option string)
    (s : Session) :
  (res_status (fst (owner_login phone password s)) = 200 ->
   (exists library rest,
      libraries_by_phone (field_value phone) = Returns (library :: rest) /\
      sess_owner (snd (owner_login phone password s))
        = Some (OwnerAuth.owner_of_row library)) /\
   sess_user (snd (owner_login phone password s)) = sess_user s /\
   sess_student (snd (owner_login phone password s)) = sess_student s /\
   (sess_user s = None -> sess_student s = None ->
    active_principals (snd (owner_login phone password s)) = 1)) /\
  (res_status (fst (user_login username password s)) = 200 ->
   (exists user rest,
      users_by_username (field_value username) = Returns (user :: rest) /\
      sess_user (snd (user_login username password s))
        = Some (Auth.user_of_row user)) /\
   sess_owner (snd (user_login username password s)) = sess_owner s /\
   sess_student (snd (user_login username password s)) = sess_student s /\
   (sess_owner s = None -> sess_student s = None ->
    active_principals (snd (user_login username password s)) = 1)).
Proof.
  split; intros H.
  - destruct (owner_login_success phone password s H)
      as [library [rest [Hq [_ [Hs _]]]]].
    rewrite Hs. simpl. repeat split.
    + exists library, rest. split; [exact Hq | reflexivity].
    + intros Hu Hst. unfold active_principals. simpl. now rewrite Hu, Hst.
  - destruct (user_login_success username password s H)
      as [user [rest [Hq [_ [Hs _]]]]].
    rewrite Hs. simpl. repeat split.
    + exists user, rest. split; [exact Hq | reflexivity].
    + intros Ho Hst. unfold active_principals. simpl. now rewrite Ho, Hst.
Qed.

(** C8 (amended): when both fields are present and the data layer answers,
    an unknown identifier and a wrong secret get the same response, 401
    'Invalid credentials', from the user login and, for an active library,
    from the owner login; the owner login answers a library that is not
    active with 401 'Library account is suspended. Please contact support.'
    before it looks at the secret; a login with a missing or empty field
    is answered 400, whatever the database holds. *)
Theorem login_failure_messages (phone username password : option string)
    (s : Session) :
  (truthy_field phone = true -> truthy_field password = true ->
   (libraries_by_phone (field_value phone) = Returns [] ->
    owner_login phone password s
      = (json_message 401 "Invalid credentials", s)) /\
   (forall library rest,
      libraries_by_phone (field_value phone) = Returns (library :: rest) ->
      OwnerAuth.row_status library = "active" ->
      bcrypt_compare (field_value password) (OwnerAuth.row_password library)
        = Returns false ->
      owner_login phone password s
        = (json_message 401 "Invalid credentials", s)) /\
   (forall library rest,
      libraries_by_phone (field_value phone) = Returns (library :: rest) ->
      OwnerAuth.row_status library <> "active" ->
      owner_login phone password s
        = (json_message 401
             "Library account is suspended. Please contact support.", s))) /\
  (truthy_field username = true -> truthy_field password = true ->
   (users_by_username (field_value username) = Returns [] ->
    user_login username password s
      = (json_message 401 "Invalid credentials", s)) /\
   (forall user rest,
      users_by_username (field_value username) = Returns (user :: rest) ->
      field_value password <> Auth.row_password user ->
      user_login username password s
        = (json_message 401 "Invalid credentials", s))) /\
  (res_status (fst (user_login username password s)) = 401 ->
   fst (user_login username password s)
     = json_message 401 "Invalid credentials") /\
  (res_status (fst (owner_login phone password s)) = 401 ->
   fst (owner_login phone password s)
     = json_message 401 "Invalid credentials" \/
   fst (owner_login phone password s)
     = json_message 401
         "Library account is suspended. Please contact support.") /\
  (truthy_field phone = false \/ truthy_field password = false ->
   owner_login phone password s
     = (json_message 400 "Phone number and password are required", s) /\
   res_status (fst (owner_login phone password s)) = 400) /\
  (truthy_field username = false \/ truthy_field password = false ->
   user_login username password s
     = (json_message 400 "Username and password are required", s) /\
   res_status (fst (user_login username password s)) = 400).
Proof.
  unfold OwnerAuth.login, Auth.login.
  split; [|split; [|split; [|split; [|split]]]].
  - intros Hph Hpw. rewrite Hph, Hpw. simpl. split; [|split].
    + intros Hq. rewrite Hq. reflexivity.
    + intros library rest Hq Hst Hc. rewrite Hq, Hst, Hc. reflexivity.
    + intros library rest Hq Hst. rewrite Hq.
      apply String.eqb_neq in Hst. rewrite Hst. reflexivity.
  - intros Hun Hpw. rewrite Hun, Hpw. simpl. split.
    + intros Hq. rewrite Hq. reflexivity.
    + intros user rest Hq Hne. rewrite Hq.
      apply String.eqb_neq in Hne. rewrite Hne. reflexivity.
  - destruct (negb (truthy_field username) || negb (truthy_field password));
      [discriminate|].
    destruct (users_by_username (field_value username))
      as [err | [|user rest]]; try discriminate; try reflexivity.
    destruct (negb (field_value password =? Auth.row_password user));
      [reflexivity | discriminate].
  - destruct (negb (truthy_field phone) || negb (truthy_field password));
      [discriminate|].
    destruct (libraries_by_phone (field_value phone))
      as [err | [|library rest]].
    + simpl. rewrite login_catch_status. discriminate.
    + left. reflexivity.
    + destruct (negb (OwnerAuth.row_status library =? "active"));
        [right; reflexivity|].
      destruct (bcrypt_compare _ _) as [err | []].
      * simpl. rewrite login_catch_status. discriminate.
      * discriminate.
      * left. reflexivity.
  - intros [H | H]; rewrite H; simpl; rewrite ?orb_true_r; split; reflexivity.
  - intros [H | H]; rewrite H; simpl; rewrite ?orb_true_r; split; reflexivity.
Qed.

End Logins.

(** C7, as stated, fails: a login does not clear the other slots.  An owner
    login in a session that holds a User, and a user login in a session
    that holds an Owner, both succeed and leave two Principals active. *)
Lemma login_keeps_other_principal :
  res_status (fst (OwnerAuth.login sample_libraries sample_compare
                     (Some "9000000007") (Some "secret") desk_session)) = 200 /\
  snd (OwnerAuth.login sample_libraries sample_compare
         (Some "9000000007") (Some "secret") desk_session)
    = mkSession (Some (OwnerAuth.owner_of_row sample_library))
                (Some desk_user) None /\
  active_principals
    (snd (OwnerAuth.login sample_libraries sample_compare
            (Some "9000000007") (Some "secret") desk_session)) = 2 /\
  res_status (fst (Auth.login sample_users (Some "meena") (Some "secret")
                     owner_session)) = 200 /\
  active_principals
    (snd (Auth.login sample_users (Some "meena") (Some "secret")
            owner_session)) = 2.
Proof.
  repeat split.
Qed.

Lemma login_writes_own_slot_witness :
  sess_owner (snd (OwnerAuth.login sample_libraries sample_compare
                     (Some "9000000007") (Some "secret") staff_session))
    <> None /\
  sess_user (snd (OwnerAuth.login sample_libraries sample_compare
                    (Some "9000000007") (Some "secret") staff_session))
    = Some staff_user /\
  active_principals
    (snd (Auth.login sample_users (Some "meena") (Some "secret")
            emptySession)) = 1.
Proof.
  destruct (login_writes_own_slot sample_libraries sample_compare sample_users
              (Some "9000000007") (Some "meena") (Some "secret") staff_session)
    as [Ho _].
  destruct (login_writes_own_slot sample_libraries sample_compare sample_users
              (Some "9000000007") (Some "meena") (Some "secret") emptySession)
    as [_ Hu].
  destruct (Ho eq_refl) as [[library [rest [_ Hw]]] [Hk _]].
  destruct (Hu eq_refl) as [_ [_ [_ Hone]]].
  split; [|split].
  - rewrite Hw. discriminate.
  - exact Hk.
  - exact (Hone eq_refl eq_refl).
Defined.

(** C8, as stated, fails: a wrong secret for the phone of a suspended
    library is answered with the suspension message, which differs from the
    'Invalid credentials' an unknown phone gets; and a missing field is
    answered 400, not 401. *)
Lemma suspended_library_wrong_secret :
  sample_compare "wrong" (OwnerAuth.row_password suspended_library)
    = Returns false /\
  fst (OwnerAuth.login sample_libraries sample_compare
         (Some "9000000008") (Some "wrong") emptySession)
    = json_message 401 "Library account is suspended. Please contact support." /\
  fst (OwnerAuth.login sample_libraries sample_compare
         (Some "9000000000") (Some "wrong") emptySession)
    = json_message 401 "Invalid credentials" /\
  res_message (fst (OwnerAuth.login sample_libraries sample_compare
                      (Some "9000000008") (Some "wrong") emptySession))
    <> "Invalid credentials" /\
  res_status (fst (Auth.login sample_users (Some "meena") None emptySession))
    = 400.
Proof.
  repeat split. discriminate.
Qed.

Lemma login_failure_messages_witness :
  OwnerAuth.login sample_libraries sample_compare
    (Some "9000000000") (Some "wrong") emptySession
    = (json_message 401 "Invalid credentials", emptySession) /\
  OwnerAuth.login sample_libraries sample_compare
    (Some "9000000007") (Some "wrong") emptySession
    = (json_message 401 "Invalid credentials", emptySession) /\
  Auth.login sample_users (Some "meena") (Some "wrong") emptySession
    = (json_message 401 "Invalid credentials", emptySession) /\
  Auth.login sample_users (Some "nobody") (Some "wrong") emptySession
    = (json_message 401 "Invalid credentials", emptySession) /\
  OwnerAuth.login sample_libraries sample_compare
    (Some "9000000007") None emptySession
    = (json_message 400 "Phone number and password are required",
       emptySession) /\
  Auth.login sample_users (Some "") (Some "secret") emptySession
    = (json_message 400 "Username and password are required", emptySession).
Proof.
  destruct (login_failure_messages sample_libraries sample_compare sample_users
              (Some "9000000000") (Some "nobody") (Some "wrong") emptySession)
    as [Ho [Hu _]].
  destruct (login_failure_messages sample_libraries sample_compare sample_users
              (Some "9000000007") (Some "meena") (Some "wrong") emptySession)
    as [Ho' [Hu' _]].
  destruct (login_failure_messages sample_libraries sample_compare sample_users
              (Some "9000000007") (Some "") None emptySession)
    as [_ [_ [_ [_ [Hmo _]]]]].
  destruct (login_failure_messages sample_libraries sample_compare sample_users
              (Some "9000000007") (Some "") (Some "secret") emptySession)
    as [_ [_ [_ [_ [_ Hmu]]]]].
  destruct (Ho eq_refl eq_refl) as [Hunknown _].
  destruct (Ho' eq_refl eq_refl) as [_ [Hwrong _]].
  destruct (Hu eq_refl eq_refl) as [Hnobody _].
  destruct (Hu' eq_refl eq_refl) as [_ Hbad].
  split; [|split; [|split; [|split; [|split]]]].
  - exact (Hunknown eq_refl).
  - exact (Hwrong sample_library [] eq_refl eq_refl eq_refl).
  - apply (Hbad sample_user_row [] eq_refl). discriminate.
  - exact (Hnobody eq_refl).
  - exact (proj1 (Hmo (or_intror eq_refl))).
  - exact (proj1 (Hmu (or_introl eq_refl))).
Defined.

(** C9, as stated, fails: when [req.session.destroy] reports an error both
    logout handlers answer 500 and return before [res.clearCookie]. *)
Lemma logout_failure_keeps_cookie :
  res_status (OwnerAuth.logout (Some "session store unavailable")) = 500 /\
  res_clearedCookies (OwnerAuth.logout (Some "session store unavailable")) = [] /\
  res_status (Auth.logout (Some "session store unavailable")) = 500 /\
  res_clearedCookies (Auth.logout (Some "session store unavailable")) = [].
Proof.
  repeat split.
Qed.

(** C9 (amended): both logout handlers clear the cookie 'connect.sid' and
    answer 'Logout successful' exactly when the session was destroyed
    without error; when the destroy fails they answer 500 'Could not log
    out, please try again.' and leave the cookie alone. *)
Theorem logout_paths (err : option string) :
  OwnerAuth.logout err = Auth.logout err /\
  OwnerAuth.logout None
    = mkResponse 200 "Logout successful" None None None ["connect.sid"] /\
  (forall e, OwnerAuth.logout (Some e)
             = json_message 500 "Could not log out, please try again.") /\
  (In "connect.sid" (res_clearedCookies (OwnerAuth.logout err)) <-> err = None) /\
  (res_status (OwnerAuth.logout err) = 500 <-> err <> None) /\
  (res_status (OwnerAuth.logout err) = 200 <-> err = None).
Proof.
  split; [destruct err; reflexivity|].
  split; [reflexivity|].
  split; [reflexivity|].
  destruct err as [e|]; simpl; repeat split; intros H;
    try discriminate H; try reflexivity; try contradiction;
    try (now elim H); try (now left).
Qed.

(** ** More on the gates *)

Ltac open_session Hs :=
  unfold Auth.checkPermission, Auth.checkPermissions, Auth.checkAdmin,
    Auth.checkAdminOrStaff, Auth.authenticateOwner, Auth.authenticateStudent,
    Auth.authenticateUser, Auth.authenticateAny, OwnerAuth.authenticateOwner,
    OwnerAuth.ensureOwnerDataIsolation, Auth.session_owner_with_id,
    Auth.session_user_with_id, Auth.session_student_with_id;
  rewrite Hs.

Ltac by_401 := eexists; split; reflexivity.

(** X1: a request whose session holds no Principal is answered 401 by
    every gate that looks at the session, whatever permission, permission
    list and combinator the gate was built with; none answers 403 and none
    admits. *)
Theorem anonymous_is_401 (req : Request) (s : Session)
    (permission : string) (permissions : list string) (logic : string) :
  req_session req = Some s ->
  sess_owner s = None -> sess_user s = None -> sess_student s = None ->
  Forall (fun gate => Unauthenticated (gate req))
         (session_gates permission permissions logic).
Proof.
  intros Hs Ho Hu Hst. unfold session_gates.
  repeat (apply Forall_cons; [open_session Hs; rewrite ?Ho, ?Hu, ?Hst; by_401|]).
  apply Forall_nil.
Qed.

Lemma anonymous_is_401_witness :
  Forall (fun gate => Unauthenticated (gate (request_of emptySession)))
         (session_gates "manage_branches" ["manage_branches"] "AND").
Proof.
  exact (anonymous_is_401 (request_of emptySession) emptySession
           "manage_branches" ["manage_branches"] "AND"
           eq_refl eq_refl eq_refl eq_refl).
Defined.

(** X2: a session whose User has role 'admin' passes checkPermission,
    checkPermissions, checkAdmin and checkAdminOrStaff with the request
    unchanged, whatever is required and whatever permissions the User
    holds. *)
Theorem admin_bypass (req : Request) (s : Session) (u : User)
    (permission : string) (permissions : list string) (logic : string) :
  req_session req = Some s -> sess_user s = Some u -> user_role u = "admin" ->
  Forall (fun gate => gate req = Next req)
         (authorization_gates permission permissions logic).
Proof.
  intros Hs Hu Hrole. unfold authorization_gates.
  repeat (apply Forall_cons;
          [open_session Hs; rewrite Hu, Hrole;
           destruct (sess_owner s); reflexivity|]).
  apply Forall_nil.
Qed.

Lemma admin_bypass_witness :
  Forall (fun gate => gate (request_of admin_session)
                      = Next (request_of admin_session))
         (authorization_gates "manage_branches" ["manage_branches"; "x"] "AND").
Proof.
  exact (admin_bypass (request_of admin_session) admin_session admin_user
           "manage_branches" ["manage_branches"; "x"] "AND"
           eq_refl eq_refl eq_refl).
Defined.

(** X3: the role gates are ordered.  What checkAdmin admits,
    checkAdminOrStaff and every checkPermissions gate admit; what
    checkAdminOrStaff admits, every checkPermission gate admits. *)
Theorem gate_hierarchy (req : Request) (permission : string)
    (permissions : list string) (logic : string) :
  (admits (Auth.checkAdmin req) = true ->
   admits (Auth.checkAdminOrStaff req) = true /\
   admits (Auth.checkPermissions permissions logic req) = true) /\
  (admits (Auth.checkAdminOrStaff req) = true ->
   admits (Auth.checkPermission permission req) = true).
Proof.
  unfold Auth.checkAdmin, Auth.checkAdminOrStaff, Auth.checkPermissions,
    Auth.checkPermission.
  destruct (req_session req) as [s|]; [|split; discriminate].
  destruct (sess_owner s) as [o|], (sess_user s) as [u|];
    try (split; [split|]; reflexivity); try (split; discriminate).
  - destruct (user_role u =? "admin"), (user_role u =? "staff"); simpl;
      split; intros H; try split; try reflexivity; try discriminate H.
    destruct (includes _ _); reflexivity.
  - destruct (user_role u =? "admin"), (user_role u =? "staff"); simpl;
      split; intros H; try split; try reflexivity; try discriminate H.
Qed.

Lemma gate_hierarchy_witness :
  admits (Auth.checkPermission "manage_branches" (request_of staff_session))
    = true /\
  admits (Auth.checkPermissions ["x"] "AND" (request_of admin_session)) = true.
Proof.
  split.
  - exact (proj2 (gate_hierarchy (request_of staff_session)
                    "manage_branches" [] "OR") eq_refl).
  - exact (proj2 (proj1 (gate_hierarchy (request_of admin_session)
                           "manage_branches" ["x"] "AND") eq_refl)).
Defined.

Lemma hasPermission_singleton (p logic : string) (held : list string) :
  Auth.hasPermission [p] logic held = includes held p.
Proof.
  unfold Auth.hasPermission, every, some. simpl.
  destruct (toUpperCase logic =? "AND");
    [apply andb_true_r | apply orb_false_r].
Qed.



(** X5: granting permissions never closes a gate.  If two sessions differ
    only in that the second User holds every permission the first holds
    (same role, same Owner slot), then whatever checkPermissions or
    checkPermission admits for the first it admits for the second. *)
Theorem more_permissions_more_access (req req' : Request) (s s' : Session)
    (u u' : User) (p : string) (permissions : list string) (logic : string) :
  req_session req = Some s -> req_session req' = Some s' ->
  sess_owner s = sess_owner s' ->
  sess_user s = Some u -> sess_user s' = Some u' ->
  user_role u = user_role u' ->
  (forall q, In q (Auth.userPermissions u) -> In q (Auth.userPermissions u')) ->
  (admits (Auth.checkPermissions permissions logic req) = true ->
   admits (Auth.checkPermissions permissions logic req') = true) /\
  (admits (Auth.checkPermission p req) = true ->
   admits (Auth.checkPermission p req') = true).
Proof.
  intros Hs Hs' Ho Hu Hu' Hrole Hsub.
  unfold Auth.checkPermissions, Auth.checkPermission.
  rewrite Hs, Hs', <- Ho, Hu, Hu', <- Hrole.
  destruct (sess_owner s) as [o|].
  - split; intros _; [reflexivity|].
    destruct ((user_role u =? "admin") || (user_role u =? "staff"));
      [reflexivity|]. destruct (includes _ _); reflexivity.
  - split.
    + destruct (user_role u =? "admin"); [reflexivity|].
      destruct (Auth.hasPermission permissions logic (Auth.userPermissions u))
        eqn:H; [|discriminate]. intros _.
      assert (H' : Auth.hasPermission permissions logic
                     (Auth.userPermissions u') = true).
      { unfold Auth.hasPermission in *.
        destruct (toUpperCase logic =? "AND").
        - apply every_includes. apply every_includes in H.
          intros q Hq. auto.
        - apply some_includes. apply some_includes in H.
          destruct H as [q [Hq Hin]]. exists q. auto. }
      rewrite H'. reflexivity.
    + destruct ((user_role u =? "admin") || (user_role u =? "staff"));
        [reflexivity|].
      destruct (includes (Auth.userPermissions u) p) eqn:H; [|discriminate].
      intros _. apply includes_In in H. apply Hsub in H.
      apply includes_In in H. rewrite H. reflexivity.
Qed.

Lemma more_permissions_more_access_witness :
  admits (Auth.checkPermissions ["manage_library_students"] "AND"
            (request_of manager_session)) = true /\
  admits (Auth.checkPermission "manage_library_students"
            (request_of manager_session)) = true.
Proof.
  assert (Hsub : forall q, In q (Auth.userPermissions desk_user) ->
                           In q (Auth.userPermissions manager_user)).
  { intros q [<- | []]. simpl. auto. }
  destruct (more_permissions_more_access
              (request_of desk_session) (request_of manager_session)
              desk_session manager_session desk_user manager_user
              "manage_library_students" ["manage_library_students"] "AND"
              eq_refl eq_refl eq_refl eq_refl eq_refl eq_refl Hsub)
    as [Hps Hp].
  split; [exact (Hps eq_refl) | exact (Hp eq_refl)].
Defined.

(** X6: authenticateAny admits exactly the requests that authenticateOwner,
    authenticateUser or authenticateStudent of auth.js admits, and passes
    the request on unchanged: it attaches neither [req.owner] nor
    [req.libraryId] nor [req.student]. *)
Theorem authenticateAny_is_or (req : Request) :
  admits (Auth.authenticateAny req)
    = admits (Auth.authenticateOwner req) || admits (Auth.authenticateUser req)
      || admits (Auth.authenticateStudent req) /\
  (forall req', Auth.authenticateAny req = Next req' -> req' = req) /\
  (Auth.authenticateAny req = Next req \/
   Unauthenticated (Auth.authenticateAny req)).
Proof.
  unfold Auth.authenticateAny, Auth.authenticateOwner, Auth.authenticateUser,
    Auth.authenticateStudent.
  destruct (Auth.session_owner_with_id req),
    (Auth.session_user_with_id req), (Auth.session_student_with_id req);
    simpl; repeat split; intros; try congruence; auto;
    right; eexists; split; reflexivity.
Qed.

(** X7: the empty list and the two combinators.  checkPermissions([],
    'AND') admits every session that holds an Owner or a User; for a
    non-empty required list, what the AND gate admits every other
    combinator admits too. *)
Theorem and_implies_or (req : Request) (s : Session)
    (permissions : list string) (logic logic' : string) :
  req_session req = Some s ->
  ((sess_owner s <> None \/ sess_user s <> None) ->
   Auth.checkPermissions [] "AND" req = Next req) /\
  (toUpperCase logic = "AND" -> permissions <> [] ->
   admits (Auth.checkPermissions permissions logic req) = true ->
   admits (Auth.checkPermissions permissions logic' req) = true).
Proof.
  intros Hs. unfold Auth.checkPermissions. rewrite Hs. split.
  - intros H. destruct (sess_owner s) as [o|]; [reflexivity|].
    destruct (sess_user s) as [u|]; [|destruct H as [H|H]; now elim H].
    destruct (user_role u =? "admin"); reflexivity.
  - intros Hl Hne. destruct (sess_owner s) as [o|]; [reflexivity|].
    destruct (sess_user s) as [u|]; [|discriminate].
    destruct (user_role u =? "admin"); [reflexivity|].
    destruct (Auth.hasPermission permissions logic (Auth.userPermissions u))
      eqn:H; [|discriminate]. intros _.
    apply (hasPermission_AND _ _ _ Hl) in H.
    assert (Hany : held_any permissions (Auth.userPermissions u)).
    { destruct permissions as [|q rest]; [now elim Hne|].
      exists q. split; [left; reflexivity | apply H; left; reflexivity]. }
    assert (H' : Auth.hasPermission permissions logic'
                   (Auth.userPermissions u) = true).
    { destruct (String.eqb_spec (toUpperCase logic') "AND") as [E|E].
      - now apply hasPermission_AND.
      - now apply hasPermission_not_AND. }
    rewrite H'. reflexivity.
Qed.

Lemma and_implies_or_witness :
  Auth.checkPermissions [] "AND" (request_of clerk_session)
    = Next (request_of clerk_session) /\
  admits (Auth.checkPermissions ["manage_library_students"] "OR"
            (request_of desk_session)) = true.
Proof.
  split.
  - apply (proj1 (and_implies_or (request_of clerk_session) clerk_session
                    [] "AND" "OR" eq_refl)).
    right. discriminate.
  - apply (proj2 (and_implies_or (request_of desk_session) desk_session
                    ["manage_library_students"] "and" "OR" eq_refl));
      [reflexivity | discriminate | reflexivity].
Defined.

(** X8: the role and permission gates pass the request on as it came: an
    admitted request is the same request, so [req.libraryId] behind the
    gates of the branches router is whatever was set before them, and is
    undefined on a request nothing has touched. *)
Theorem authorization_gates_bind_nothing (req : Request)
    (permission : string) (permissions : list string) (logic : string) :
  Forall (fun gate => forall req', gate req = Next req' -> req' = req)
         (authorization_gates permission permissions logic) /\
  (forall req', Branches.read_gate req = Next req' ->
     req_libraryId req' = req_libraryId req) /\
  (forall req', Branches.write_gate req = Next req' ->
     req_libraryId req' = req_libraryId req).
Proof.
  assert (Hps : forall required lg req',
             Auth.checkPermissions required lg req = Next req' -> req' = req).
  { intros required lg req'. unfold Auth.checkPermissions.
    destruct (req_session req) as [s|]; [|discriminate].
    destruct (sess_owner s); [congruence|].
    destruct (sess_user s) as [u|]; [|discriminate].
    destruct (user_role u =? "admin"); [congruence|].
    destruct (negb _); [discriminate | congruence]. }
  split; [|split].
  - unfold authorization_gates.
    repeat (apply Forall_cons; [|]); try apply Forall_nil.
    + intros req'. unfold Auth.checkPermission.
      destruct (req_session req) as [s|]; [|discriminate].
      destruct (sess_user s) as [u|], (sess_owner s);
        repeat match goal with
               | |- context [if ?b then _ else _] => destruct b
               end; congruence.
    + apply Hps.
    + intros req'. unfold Auth.checkAdmin.
      destruct (req_session req) as [s|]; [|discriminate].
      destruct (sess_owner s); [congruence|].
      destruct (sess_user s) as [u|]; [|discriminate].
      destruct (negb _); [discriminate | congruence].
    + intros req'. unfold Auth.checkAdminOrStaff.
      destruct (req_session req) as [s|]; [|discriminate].
      destruct (sess_owner s); [congruence|].
      destruct (sess_user s) as [u|]; [|discriminate].
      destruct (_ || _); [congruence | discriminate].
  - intros req' H. apply Hps in H. now subst.
  - intros req' H. apply Hps in H. now subst.
Qed.

Lemma authorization_gates_bind_nothing_witness :
  match Branches.read_gate (request_of desk_session) with
  | Next req' => req_libraryId req' = JUndefined
  | _ => False
  end.
Proof.
  destruct (Branches.read_gate (request_of desk_session)) as [req' | r |]
    eqn:E.
  - exact (proj1 (proj2 (authorization_gates_bind_nothing
                           (request_of desk_session) "p" [] "OR")) req' E).
  - vm_compute in E. discriminate E.
  - vm_compute in E. discriminate E.
Defined.

(** ** More on the logins *)

Section LoginOutcomes.

Variable libraries_by_phone : string -> Result (list OwnerAuth.LibraryRow).
Variable bcrypt_compare : string -> string -> Result bool.
Variable users_by_username : string -> Result (list Auth.UserRow).

Local Notation "'owner_login'" :=
  (OwnerAuth.login libraries_by_phone bcrypt_compare).
Local Notation "'user_login'" := (Auth.login users_by_username).

Ltac split_fields f g :=
  destruct (truthy_field f) eqn:?, (truthy_field g) eqn:?; simpl.

(** X9: the owner login answers 200 exactly when phone and password are
    present, the lookup returns at least one row, the first row has status
    'active' and bcrypt accepts the password against the hash of that row;
    rows after the first are never looked at.  The Owner of the response
    and the Owner written to the session are then the one built from that
    row. *)
Theorem owner_login_succeeds_iff (phone password : option string)
    (s : Session) :
  (res_status (fst (owner_login phone password s)) = 200 <->
   truthy_field phone = true /\ truthy_field password = true /\
   exists library rest,
     libraries_by_phone (field_value phone) = Returns (library :: rest) /\
     OwnerAuth.row_status library = "active" /\
     bcrypt_compare (field_value password) (OwnerAuth.row_password library)
       = Returns true) /\
  (forall library rest,
     res_status (fst (owner_login phone password s)) = 200 ->
     libraries_by_phone (field_value phone) = Returns (library :: rest) ->
     res_owner (fst (owner_login phone password s))
       = Some (OwnerAuth.owner_of_row library) /\
     sess_owner (snd (owner_login phone password s))
       = Some (OwnerAuth.owner_of_row library)).
Proof.
  unfold OwnerAuth.login. split_fields phone password.
  2-4: split; [split; [discriminate | intros [? [? _]]; discriminate]
              | discriminate].
  destruct (libraries_by_phone (field_value phone))
    as [err | [|library rest]] eqn:Hq.
  - simpl. rewrite login_catch_status. split; [split|]; try discriminate.
    intros [_ [_ [l [r [H _]]]]]. discriminate H.
  - split; [split|]; try discriminate.
    intros [_ [_ [l [r [H _]]]]]. discriminate H.
  - destruct (OwnerAuth.row_status library =? "active") eqn:Hst; simpl.
    2:{ split; [split|]; try discriminate.
        intros [_ [_ [l [r [H [Hs _]]]]]]. injection H as <- <-.
        apply String.eqb_neq in Hst. contradiction. }
    destruct (bcrypt_compare _ _) as [err | []] eqn:Hc; simpl.
    + rewrite login_catch_status. split; [split|]; try discriminate.
      intros [_ [_ [l [r [H [_ Hc']]]]]]. injection H as <- <-. congruence.
    + split; [split|].
      * intros _. repeat split. exists library, rest.
        apply String.eqb_eq in Hst. auto.
      * reflexivity.
      * intros l r _ H. injection H as <- <-. split; reflexivity.
    + split; [split|]; try discriminate.
      intros [_ [_ [l [r [H [_ Hc']]]]]]. injection H as <- <-. congruence.
Qed.

(** X10: the user login answers 200 exactly when username and password
    are present, the lookup returns at least one row and the submitted
    password is, character for character, the [password] column of the
    first row; the User written to the session then has the id, username
    and role of the row and its permissions, [[]] when the column is
    null. *)
Theorem user_login_succeeds_iff (username password : option string)
    (s : Session) :
  (res_status (fst (user_login username password s)) = 200 <->
   truthy_field username = true /\ truthy_field password = true /\
   exists user rest,
     users_by_username (field_value username) = Returns (user :: rest) /\
     field_value password = Auth.row_password user) /\
  (forall user rest,
     res_status (fst (user_login username password s)) = 200 ->
     users_by_username (field_value username) = Returns (user :: rest) ->
     sess_user (snd (user_login username password s))
       = Some (mkUser (Auth.row_id user) (Auth.row_username user)
                 (Auth.row_role user)
                 (Some (match Auth.row_permissions user with
                        | Some l => l
                        | None => []
                        end))) /\
     res_user (fst (user_login username password s))
       = sess_user (snd (user_login username password s))).
Proof.
  unfold Auth.login. split_fields username password.
  2-4: split; [split; [discriminate | intros [? [? _]]; discriminate]
              | discriminate].
  destruct (users_by_username (field_value username))
    as [err | [|user rest]] eqn:Hq.
  - split; [split|]; try discriminate.
    intros [_ [_ [l [r [H _]]]]]. discriminate H.
  - split; [split|]; try discriminate.
    intros [_ [_ [l [r [H _]]]]]. discriminate H.
  - destruct (field_value password =? Auth.row_password user) eqn:Hp; simpl.
    + split; [split|].
      * intros _. repeat split. exists user, rest.
        apply String.eqb_eq in Hp. auto.
      * reflexivity.
      * intros l r _ H. injection H as <- <-. split; reflexivity.
    + split; [split|]; try discriminate.
      intros [_ [_ [l [r [H Hp']]]]]. injection H as <- <-.
      apply String.eqb_neq in Hp. contradiction.
Qed.

(** X11: both logins answer 400 exactly when the identifier or the
    password is missing or empty; the answer is then the same whatever the
    database and bcrypt would have said, and the session is untouched. *)
Theorem login_400_iff_missing_field (phone username password : option string)
    (s : Session) :
  (res_status (fst (owner_login phone password s)) = 400 <->
   truthy_field phone = false \/ truthy_field password = false) /\
  (res_status (fst (user_login username password s)) = 400 <->
   truthy_field username = false \/ truthy_field password = false) /\
  (truthy_field phone = false \/ truthy_field password = false ->
   forall libraries' compare',
     OwnerAuth.login libraries' compare' phone password s
       = (json_message 400 "Phone number and password are required", s)) /\
  (truthy_field username = false \/ truthy_field password = false ->
   forall users',
     Auth.login users' username password s
       = (json_message 400 "Username and password are required", s)).
Proof.
  unfold OwnerAuth.login, Auth.login.
  split; [|split; [|split]].
  - split_fields phone password; try (split; auto; fail).
    split; [|intros [H|H]; discriminate H].
    destruct (libraries_by_phone _) as [err | [|library rest]]; simpl;
      rewrite ?login_catch_status; try discriminate.
    destruct (negb _); simpl; [discriminate|].
    destruct (bcrypt_compare _ _) as [err | []]; simpl;
      rewrite ?login_catch_status; discriminate.
  - split_fields username password; try (split; auto; fail).
    split; [|intros [H|H]; discriminate H].
    destruct (users_by_username _) as [err | [|user rest]]; simpl;
      try discriminate.
    destruct (negb _); discriminate.
  - intros [H|H] libraries' compare'; rewrite H; simpl;
      [|rewrite orb_true_r]; reflexivity.
  - intros [H|H] users'; rewrite H; simpl;
      [|rewrite orb_true_r]; reflexivity.
Qed.

End LoginOutcomes.

Lemma owner_login_succeeds_iff_witness :
  res_status (fst (OwnerAuth.login sample_libraries sample_compare
                     (Some "9000000007") (Some "secret") emptySession)) = 200.
Proof.
  apply (proj1 (owner_login_succeeds_iff sample_libraries sample_compare
                  (Some "9000000007") (Some "secret") emptySession)).
  repeat split. exists sample_library, []. repeat split.
Defined.

Lemma user_login_succeeds_iff_witness :
  res_status (fst (Auth.login sample_users (Some "meena") (Some "secret")
                     emptySession)) = 200.
Proof.
  apply (proj1 (user_login_succeeds_iff sample_users
                  (Some "meena") (Some "secret") emptySession)).
  repeat split. exists sample_user_row, []. repeat split.
Defined.

Lemma login_400_iff_missing_field_witness :
  res_status (fst (OwnerAuth.login sample_libraries sample_compare
                     (Some "9000000007") (Some "") owner_session)) = 400 /\
  Auth.login sample_users None (Some "secret") owner_session
    = (json_message 400 "Username and password are required", owner_session).
Proof.
  destruct (login_400_iff_missing_field sample_libraries sample_compare
              sample_users (Some "9000000007") None (Some "") owner_session)
    as [Ho _].
  destruct (login_400_iff_missing_field sample_libraries sample_compare
              sample_users (Some "9000000007") None (Some "secret")
              owner_session) as [_ [_ [_ Hu]]].
  split.
  - apply Ho. right. reflexivity.
  - apply Hu. left. reflexivity.
Defined.

Lemma login_catch_error (err : string) :
  res_error (OwnerAuth.login_catch err) = Some err.
Proof.
  unfold OwnerAuth.login_catch. destruct (OwnerAuth.isDbAuthError err);
    reflexivity.
Qed.

Section LoginErrors.

Variable libraries_by_phone : string -> Result (list OwnerAuth.LibraryRow).
Variable bcrypt_compare : string -> string -> Result bool.
Variable users_by_username : string -> Result (list Auth.UserRow).

Local Notation "'owner_login'" :=
  (OwnerAuth.login libraries_by_phone bcrypt_compare).
Local Notation "'user_login'" := (Auth.login users_by_username).

(** X12: a login answers 500 exactly when a call it awaits throws: the
    lookup, or for the owner login bcrypt on the first row of an active
    library.  The body then carries the message of the thrown error in its
    [error] field, and the session is untouched.  No login answers
    anything but 200, 400, 401 or 500. *)
Theorem login_500_iff_throw (phone username password : option string)
    (s : Session) :
  (res_status (fst (owner_login phone password s)) = 500 <->
   truthy_field phone = true /\ truthy_field password = true /\
   exists err,
     res_error (fst (owner_login phone password s)) = Some err /\
     (libraries_by_phone (field_value phone) = Throws err \/
      exists library rest,
        libraries_by_phone (field_value phone) = Returns (library :: rest) /\
        OwnerAuth.row_status library = "active" /\
        bcrypt_compare (field_value password) (OwnerAuth.row_password library)
          = Throws err)) /\
  (res_status (fst (user_login username password s)) = 500 <->
   truthy_field username = true /\ truthy_field password = true /\
   exists err,
     users_by_username (field_value username) = Throws err /\
     user_login username password s
       = (json_error 500 "Server error during login" err, s)) /\
  (res_status (fst (owner_login phone password s)) = 500 ->
   snd (owner_login phone password s) = s) /\
  In (res_status (fst (owner_login phone password s))) [200; 400; 401; 500] /\
  In (res_status (fst (user_login username password s))) [200; 400; 401; 500].
Proof.
  unfold OwnerAuth.login, Auth.login.
  split; [|split; [|split; [|split]]].
  - destruct (truthy_field phone) eqn:?, (truthy_field password) eqn:?; simpl.
    2-4: split; [discriminate | intros [? [? _]]; discriminate].
    destruct (libraries_by_phone (field_value phone))
      as [err | [|library rest]] eqn:Hq; simpl.
    + rewrite login_catch_status, login_catch_error. split; [|reflexivity].
      intros _. repeat split. exists err. auto.
    + split; [discriminate|].
      intros [_ [_ [e [_ [H | [l [r [H _]]]]]]]]; discriminate H.
    + destruct (OwnerAuth.row_status library =? "active") eqn:Hst; simpl.
      2:{ split; [discriminate|].
          intros [_ [_ [e [_ [H | [l [r [H [Hs _]]]]]]]]]; [discriminate H|].
          injection H as <- <-. apply String.eqb_neq in Hst. contradiction. }
      destruct (bcrypt_compare _ _) as [err | []] eqn:Hc; simpl.
      * rewrite login_catch_status, login_catch_error. split; [|reflexivity].
        intros _. repeat split. exists err. split; [reflexivity|].
        right. exists library, rest. apply String.eqb_eq in Hst. auto.
      * split; [discriminate|].
        intros [_ [_ [e [_ [H | [l [r [H [_ Hc']]]]]]]]]; [discriminate H|].
        injection H as <- <-. congruence.
      * split; [discriminate|].
        intros [_ [_ [e [_ [H | [l [r [H [_ Hc']]]]]]]]]; [discriminate H|].
        injection H as <- <-. congruence.
  - destruct (truthy_field username) eqn:?, (truthy_field password) eqn:?;
      simpl.
    2-4: split; [discriminate | intros [? [? _]]; discriminate].
    destruct (users_by_username (field_value username))
      as [err | [|user rest]] eqn:Hq; simpl.
    + split; [|reflexivity]. intros _. repeat split. exists err. auto.
    + split; [discriminate|]. intros [_ [_ [e [H _]]]]. discriminate H.
    + split; [|intros [_ [_ [e [H _]]]]; discriminate H].
      destruct (negb _); discriminate.
  - destruct (negb (truthy_field phone) || negb (truthy_field password));
      [reflexivity|].
    destruct (libraries_by_phone _) as [err | [|library rest]];
      try reflexivity.
    destruct (negb _); [reflexivity|].
    destruct (bcrypt_compare _ _) as [err | []]; try reflexivity.
    discriminate.
  - destruct (negb (truthy_field phone) || negb (truthy_field password));
      [simpl; auto|].
    destruct (libraries_by_phone _) as [err | [|library rest]]; simpl;
      rewrite ?login_catch_status; auto.
    destruct (negb _); simpl; auto.
    destruct (bcrypt_compare _ _) as [err | []]; simpl;
      rewrite ?login_catch_status; auto.
  - destruct (negb (truthy_field username) || negb (truthy_field password));
      [simpl; auto|].
    destruct (users_by_username _) as [err | [|user rest]]; simpl; auto.
    destruct (negb _); simpl; auto.
Qed.

End LoginErrors.

Section LoginThenGates.

Variable libraries_by_phone : string -> Result (list OwnerAuth.LibraryRow).
Variable bcrypt_compare : string -> string -> Result bool.
Variable users_by_username : string -> Result (list Auth.UserRow).

Local Notation "'owner_login'" :=
  (OwnerAuth.login libraries_by_phone bcrypt_compare).
Local Notation "'user_login'" := (Auth.login users_by_username).

(** The session a successful owner login leaves. *)
Lemma owner_login_session (phone password : option string) (s : Session) :
  res_status (fst (owner_login phone password s)) = 200 ->
  exists library rest,
    libraries_by_phone (field_value phone) = Returns (library :: rest) /\
    owner_login phone password s
      = (mkResponse 200 "Login successful" None
                    (Some (OwnerAuth.owner_of_row library)) None [],
         mkSession (Some (OwnerAuth.owner_of_row library))
                   (sess_user s) (sess_student s)).
Proof.
  unfold OwnerAuth.login.
  destruct (negb (truthy_field phone) || negb (truthy_field password));
    [discriminate|].
  destruct (libraries_by_phone (field_value phone)) as [err | [|library rest]].
  - simpl. rewrite login_catch_status. discriminate.
  - discriminate.
  - destruct (negb _); [discriminate|].
    destruct (bcrypt_compare _ _) as [err | []].
    + simpl. rewrite login_catch_status. discriminate.
    + intros _. exists library, rest. split; reflexivity.
    + discriminate.
Qed.

(** The session a successful user login leaves. *)
Lemma user_login_session (username password : option string) (s : Session) :
  res_status (fst (user_login username password s)) = 200 ->
  exists user rest,
    users_by_username (field_value username) = Returns (user :: rest) /\
    user_login username password s
      = (mkResponse 200 "Login successful" None None
                    (Some (Auth.user_of_row user)) [],
         mkSession (sess_owner s) (Some (Auth.user_of_row user))
                   (sess_student s)).
Proof.
  unfold Auth.login.
  destruct (negb (truthy_field username) || negb (truthy_field password));
    [discriminate|].
  destruct (users_by_username (field_value username))
    as [err | [|user rest]]; try discriminate.
  destruct (negb _); [discriminate|].
  intros _. exists user, rest. split; reflexivity.
Qed.

(** X13: the session of a successful owner login passes every role and
    permission gate.  It passes authenticateOwner followed by
    ensureOwnerDataIsolation (of either file) exactly when the [id] of the
    library row is truthy, and the handler then sees that id as
    [req.libraryId]; an owner whose row id is falsy logs in and is then
    answered 401 by both pipelines. *)
Theorem owner_login_then_gates (phone password : option string) (s : Session)
    (permission : string) (permissions : list string) (logic : string) :
  res_status (fst (owner_login phone password s)) = 200 ->
  exists library rest,
    libraries_by_phone (field_value phone) = Returns (library :: rest) /\
    Forall (fun gate =>
              gate (request_of (snd (owner_login phone password s)))
              = Next (request_of (snd (owner_login phone password s))))
           (authorization_gates permission permissions logic) /\
    (truthy (OwnerAuth.row_id library) = true ->
     (exists req',
        auth_owner_pipeline (request_of (snd (owner_login phone password s)))
          = Next req' /\ req_libraryId req' = OwnerAuth.row_id library) /\
     (exists req',
        ownerAuth_owner_pipeline
          (request_of (snd (owner_login phone password s)))
          = Next req' /\ req_libraryId req' = OwnerAuth.row_id library)) /\
    (truthy (OwnerAuth.row_id library) = false ->
     Unauthenticated
       (auth_owner_pipeline (request_of (snd (owner_login phone password s))))
     /\
     Unauthenticated
       (ownerAuth_owner_pipeline
          (request_of (snd (owner_login phone password s))))).
Proof.
  intros H. destruct (owner_login_session phone password s H)
    as [library [rest [Hq Hl]]].
  exists library, rest. rewrite Hl. simpl. split; [exact Hq|].
  split; [|split].
  - unfold authorization_gates.
    repeat (apply Forall_cons; [|]); try apply Forall_nil; try reflexivity.
    unfold Auth.checkPermission. simpl.
    destruct (sess_user s) as [u|]; [|reflexivity].
    destruct (_ || _); [reflexivity|]. destruct (includes _ _); reflexivity.
  - intros Hid.
    unfold auth_owner_pipeline, ownerAuth_owner_pipeline, andThen,
      Auth.authenticateOwner, OwnerAuth.authenticateOwner,
      Auth.session_owner_with_id. simpl. rewrite Hid.
    split; eexists; split; reflexivity.
  - intros Hid.
    unfold auth_owner_pipeline, ownerAuth_owner_pipeline, andThen,
      Auth.authenticateOwner, OwnerAuth.authenticateOwner,
      Auth.session_owner_with_id. simpl. rewrite Hid.
    split; eexists; split; reflexivity.
Qed.

(** X14: after a successful user login in a session without Owner, the
    gates decide on the columns of the row the login read: a row with role
    'admin' passes every checkPermissions gate, any other row passes the
    AND gate iff its [permissions] column holds every required permission
    and any other gate iff it holds one of them; a null column holds
    none. *)
Theorem user_login_then_gates (username password : option string)
    (s : Session) :
  res_status (fst (user_login username password s)) = 200 ->
  sess_owner s = None ->
  exists user rest,
    users_by_username (field_value username) = Returns (user :: rest) /\
    forall required logic,
      let held := match Auth.row_permissions user with
                  | Some l => l
                  | None => []
                  end in
      let req := request_of (snd (user_login username password s)) in
      (Auth.row_role user = "admin" ->
       Auth.checkPermissions required logic req = Next req) /\
      (Auth.row_role user <> "admin" -> toUpperCase logic = "AND" ->
       (Auth.checkPermissions required logic req = Next req <->
        held_all required held)) /\
      (Auth.row_role user <> "admin" -> toUpperCase logic <> "AND" ->
       (Auth.checkPermissions required logic req = Next req <->
        held_any required held)).
Proof.
  intros H Ho. destruct (user_login_session username password s H)
    as [user [rest [Hq Hl]]].
  exists user, rest. split; [exact Hq|]. intros required logic held req.
  subst req. rewrite Hl. simpl.
  set (s' := mkSession (sess_owner s) (Some (Auth.user_of_row user))
                       (sess_student s)).
  assert (Hs : req_session (request_of s') = Some s') by reflexivity.
  assert (Hu : sess_user s' = Some (Auth.user_of_row user)) by reflexivity.
  split; [|split].
  - intros Hr. unfold Auth.checkPermissions. simpl. rewrite Ho. simpl.
    rewrite Hr. reflexivity.
  - intros Hr Hl'.
    rewrite (checkPermissions_user_admits (request_of s') s'
               (Auth.user_of_row user) required logic Hs Ho Hu Hr).
    now apply hasPermission_AND.
  - intros Hr Hl'.
    rewrite (checkPermissions_user_admits (request_of s') s'
               (Auth.user_of_row user) required logic Hs Ho Hu Hr).
    now apply hasPermission_not_AND.
Qed.

(** X15: what a login writes, the status routes read back.  After a
    successful owner login the status route of ownerAuth.js returns the
    Owner of the login response; the status route of auth.js reports user
    type 'owner' with the id of that Owner, and [undefined] for [name],
    [email] and [library_code], keys the session Owner does not have.
    After a successful user login in a session without Owner it returns
    the User of the login response. *)
Theorem login_then_status (phone username password : option string)
    (s : Session) :
  (res_status (fst (owner_login phone password s)) = 200 ->
   exists o,
     res_owner (fst (owner_login phone password s)) = Some o /\
     OwnerRoutes.status (request_of (snd (owner_login phone password s)))
       = (true, Some o) /\
     AuthRoutes.status (request_of (snd (owner_login phone password s)))
       = AuthRoutes.mkStatusBody true (Some "owner")
           (Some (AuthRoutes.mkStatusOwner (owner_id o)
                    JUndefined JUndefined JUndefined))
           None) /\
  (res_status (fst (user_login username password s)) = 200 ->
   sess_owner s = None ->
   exists u,
     res_user (fst (user_login username password s)) = Some u /\
     AuthRoutes.status (request_of (snd (user_login username password s)))
       = AuthRoutes.mkStatusBody true (Some "user") None (Some u)).
Proof.
  split.
  - intros H. destruct (owner_login_session phone password s H)
      as [library [rest [_ Hl]]]. rewrite Hl.
    exists (OwnerAuth.owner_of_row library). repeat split.
  - intros H Ho. destruct (user_login_session username password s H)
      as [user [rest [_ Hl]]]. rewrite Hl.
    exists (Auth.user_of_row user). split; [reflexivity|].
    unfold AuthRoutes.status. simpl. rewrite Ho. reflexivity.
Qed.

End LoginThenGates.

Lemma login_500_iff_throw_witness :
  res_status (fst (OwnerAuth.login failing_libraries sample_compare
                     (Some "9000000007") (Some "secret") emptySession)) = 500.
Proof.
  apply (proj1 (login_500_iff_throw failing_libraries sample_compare
                  sample_users (Some "9000000007") None (Some "secret")
                  emptySession)).
  repeat split. eexists. split; [reflexivity | left; reflexivity].
Defined.

Lemma owner_login_then_gates_witness :
  Unauthenticated
    (auth_owner_pipeline
       (request_of (snd (OwnerAuth.login zero_libraries sample_compare
                           (Some "9000000000") (Some "secret") emptySession)))).
Proof.
  destruct (owner_login_then_gates zero_libraries sample_compare
              (Some "9000000000") (Some "secret") emptySession
              "p" [] "OR" eq_refl)
    as [library [rest [Hq [_ [_ H]]]]].
  injection Hq as <- <-. exact (proj1 (H eq_refl)).
Defined.

Lemma user_login_then_gates_witness :
  Auth.checkPermissions ["manage_branches"; "manage_library_students"] "OR"
    (request_of (snd (Auth.login sample_users (Some "meena") (Some "secret")
                        emptySession)))
  = Next (request_of (snd (Auth.login sample_users (Some "meena")
                             (Some "secret") emptySession))).
Proof.
  destruct (user_login_then_gates sample_users (Some "meena") (Some "secret")
              emptySession eq_refl eq_refl) as [user [rest [Hq H]]].
  injection Hq as <- <-.
  destruct (H ["manage_branches"; "manage_library_students"] "OR")
    as [_ [_ Hany]].
  apply Hany; [discriminate | discriminate |].
  exists "manage_library_students". simpl. auto.
Defined.

Lemma login_then_status_witness :
  exists o,
    OwnerRoutes.status
      (request_of (snd (OwnerAuth.login sample_libraries sample_compare
                          (Some "9000000007") (Some "secret") desk_session)))
    = (true, Some o).
Proof.
  destruct (proj1 (login_then_status sample_libraries sample_compare
                     sample_users (Some "9000000007") None (Some "secret")
                     desk_session) eq_refl) as [o [_ [H _]]].
  exists o. exact H.
Defined.

(** ** Classifying database errors *)

Lemma toLowerCase_app (a b : string) :
  toLowerCase (a ++ b) = toLowerCase a ++ toLowerCase b.
Proof.
  induction a as [|c a IH]; simpl; [reflexivity | now rewrite IH].
Qed.

Lemma lower_upper_ascii (c : ascii) :
  lower_ascii (upper_ascii c) = lower_ascii c.
Proof.
  destruct c as [[] [] [] [] [] [] [] []]; reflexivity.
Qed.

Lemma toLowerCase_toUpperCase (s : string) :
  toLowerCase (toUpperCase s) = toLowerCase s.
Proof.
  induction s as [|c s IH]; simpl; [reflexivity|].
  now rewrite lower_upper_ascii, IH.
Qed.

Lemma prefix_spec (p s : string) :
  prefix p s = true <-> exists b, s = p ++ b.
Proof.
  revert s. induction p as [|c p IH]; intros s; simpl.
  - split; [intros _; exists s; reflexivity | intros _; destruct s; reflexivity].
  - destruct s as [|d s]; simpl.
    + split; [discriminate | intros [b H]; discriminate H].
    + destruct (ascii_dec c d) as [<- | Hne].
      * rewrite IH. split; intros [b H]; exists b; congruence.
      * split; [discriminate|]. intros [b H]. injection H as H _.
        now elim Hne.
Qed.

Lemma str_includes_spec (s sub : string) :
  str_includes s sub = true <-> exists a b, s = a ++ sub ++ b.
Proof.
  induction s as [|c s IH]; cbn [str_includes].
  - rewrite orb_false_r, prefix_spec. split.
    + intros [b H]. exists "", b. exact H.
    + intros [a [b H]]. destruct a as [|x a]; [|discriminate H].
      exists b. exact H.
  - rewrite orb_true_iff, IH, prefix_spec. split.
    + intros [[b H] | [a [b H]]].
      * exists "", b. exact H.
      * exists (String c a), b. simpl. now rewrite H.
    + intros [a [b H]]. destruct a as [|x a]; simpl in H.
      * left. exists b. exact H.
      * right. injection H as _ H. exists a, b. exact H.
Qed.

Lemma isDbAuthError_spec (err : string) :
  OwnerAuth.isDbAuthError err = true <->
  exists marker a b,
    In marker db_auth_markers /\ toLowerCase err = a ++ marker ++ b.
Proof.
  unfold OwnerAuth.isDbAuthError, db_auth_markers.
  destruct (String.eqb_spec err "") as [-> | Hne].
  - split; [discriminate|]. intros [m [a [b [Hin H]]]]. simpl in *.
    destruct a; [|discriminate H].
    repeat (destruct Hin as [<- | Hin]; [discriminate H|]). contradiction.
  - rewrite !orb_true_iff, !str_includes_spec. split.
    + intros [[[[[a [b H]] | [a [b H]]] | [a [b H]]] | [a [b H]]] | [a [b H]]];
        [exists "sasl" | exists "scram" | exists "server signature"
         | exists "authentication failed" | exists "28p01"];
        exists a, b; (split; [simpl; auto 10 | exact H]).
    + intros [m [a [b [Hin H]]]]. cbn [In] in Hin.
      destruct Hin as [<- | [<- | [<- | [<- | [<- | []]]]]]; eauto 10.
Qed.

(** X16: isDbAuthError is true exactly for the messages whose lower-case
    form contains 'sasl', 'scram', 'server signature', 'authentication
    failed' or '28p01'; for a message of ASCII characters the letter case
    does not matter, and the empty message is no such error.  The catch blocks of the owner
    login, the registration and the code check answer such an error with
    the database-authentication message, status 500, and the error
    message in the body. *)
Theorem isDbAuthError_markers (err : string) :
  (OwnerAuth.isDbAuthError err = true <->
   exists marker a b,
     In marker db_auth_markers /\ toLowerCase err = a ++ marker ++ b) /\
  (ascii_only err = true ->
   OwnerAuth.isDbAuthError (toUpperCase err) = OwnerAuth.isDbAuthError err) /\
  OwnerAuth.isDbAuthError "" = false /\
  (forall a m b, In (toLowerCase m) db_auth_markers ->
     err = a ++ m ++ b ->
     OwnerAuth.login_catch err = OwnerAuth.handleDbAuthError err /\
     OwnerRoutes.register_catch err = OwnerAuth.handleDbAuthError err /\
     OwnerRoutes.check_code_catch err = OwnerAuth.handleDbAuthError err /\
     res_status (OwnerAuth.handleDbAuthError err) = 500 /\
     res_error (OwnerAuth.handleDbAuthError err) = Some err).
Proof.
  split; [apply isDbAuthError_spec|]. split; [|split; [reflexivity|]].
  - intros _. destruct (OwnerAuth.isDbAuthError err) eqn:H.
    + apply isDbAuthError_spec. apply isDbAuthError_spec in H.
      destruct H as [m [a [b [Hin H]]]]. exists m, a, b.
      now rewrite toLowerCase_toUpperCase.
    + destruct (OwnerAuth.isDbAuthError (toUpperCase err)) eqn:H';
        [|reflexivity].
      apply isDbAuthError_spec in H'. rewrite toLowerCase_toUpperCase in H'.
      apply isDbAuthError_spec in H'. congruence.
  - intros a m b Hin ->.
    assert (H : OwnerAuth.isDbAuthError (a ++ m ++ b) = true).
    { apply isDbAuthError_spec.
      exists (toLowerCase m), (toLowerCase a), (toLowerCase b).
      split; [exact Hin|]. now rewrite !toLowerCase_app. }
    unfold OwnerAuth.login_catch, OwnerRoutes.register_catch,
      OwnerRoutes.check_code_catch. rewrite H. repeat split.
Qed.

Lemma isDbAuthError_markers_witness :
  OwnerAuth.login_catch
    "SASL: SCRAM-SERVER-FINAL-MESSAGE: server signature is missing"
  = OwnerAuth.handleDbAuthError
      "SASL: SCRAM-SERVER-FINAL-MESSAGE: server signature is missing".
Proof.
  refine (proj1 (proj2 (proj2 (proj2 (isDbAuthError_markers _)))
                   "" "SASL" _ _ eq_refl)).
  simpl. auto.
Defined.


(** ** Status and refresh *)

(** X17: the status route of auth.js reports an authenticated session
    exactly when the session holds an Owner or a User, the Owner first; a
    session that holds only a Student with an id passes authenticateAny and
    is still reported as not authenticated.  The owner object of the answer
    has the id of the session Owner and [undefined] for [name], [email]
    and [library_code]. *)
Theorem status_reports (req : Request) :
  (AuthRoutes.st_isAuthenticated (AuthRoutes.status req) = true <->
   exists s, req_session req = Some s /\
             (sess_owner s <> None \/ sess_user s <> None)) /\
  (AuthRoutes.st_userType (AuthRoutes.status req) = Some "owner" <->
   exists s o, req_session req = Some s /\ sess_owner s = Some o) /\
  (forall so, AuthRoutes.st_owner (AuthRoutes.status req) = Some so ->
     AuthRoutes.so_name so = JUndefined /\
     AuthRoutes.so_email so = JUndefined /\
     AuthRoutes.so_library_code so = JUndefined /\
     exists s o, req_session req = Some s /\ sess_owner s = Some o /\
                 AuthRoutes.so_id so = owner_id o) /\
  (forall s st, req_session req = Some s -> sess_owner s = None ->
     sess_user s = None -> sess_student s = Some st ->
     truthy (student_id st) = true ->
     Auth.authenticateAny req = Next req /\
     AuthRoutes.status req = AuthRoutes.mkStatusBody false None None None).
Proof.
  unfold AuthRoutes.status. split; [|split; [|split]].
  - destruct (req_session req) as [s|]; simpl.
    2:{ split; [discriminate | intros [s [H _]]; discriminate H]. }
    destruct (sess_owner s) as [o|] eqn:Ho; simpl.
    { split; [|reflexivity]. intros _. exists s. split; [reflexivity|].
      left. rewrite Ho. discriminate. }
    destruct (sess_user s) as [u|] eqn:Hu; simpl.
    { split; [|reflexivity]. intros _. exists s. split; [reflexivity|].
      right. rewrite Hu. discriminate. }
    split; [discriminate|]. intros [s' [Hs [H|H]]]; injection Hs as <-;
      congruence.
  - destruct (req_session req) as [s|]; simpl.
    2:{ split; [discriminate | intros [s [o [H _]]]; discriminate H]. }
    destruct (sess_owner s) as [o|] eqn:Ho; simpl.
    { split; [|reflexivity]. intros _. exists s, o. auto. }
    destruct (sess_user s) as [u|]; simpl;
      (split; [discriminate|]); intros [s' [o [Hs H]]];
      injection Hs as <-; congruence.
  - intros so. destruct (req_session req) as [s|]; simpl; [|discriminate].
    destruct (sess_owner s) as [o|] eqn:Ho; simpl.
    + intros H. injection H as <-. repeat split. exists s, o. auto.
    + destruct (sess_user s); discriminate.
  - intros s st Hs Ho Hu Hst Hid. rewrite Hs, Ho, Hu. split; [|reflexivity].
    unfold Auth.authenticateAny, Auth.session_owner_with_id,
      Auth.session_user_with_id, Auth.session_student_with_id.
    rewrite Hs, Ho, Hu, Hst, Hid. reflexivity.
Qed.

Lemma status_reports_witness :
  Auth.authenticateAny (request_of student_session)
    = Next (request_of student_session) /\
  AuthRoutes.status (request_of student_session)
    = AuthRoutes.mkStatusBody false None None None.
Proof.
  exact (proj2 (proj2 (proj2 (status_reports (request_of student_session))))
           student_session sample_student
           eq_refl eq_refl eq_refl eq_refl eq_refl).
Defined.

Section Refresh.

Variable library_by_id : JsVal -> Result (list AuthRoutes.LibraryInfo).
Variable user_by_id : JsVal -> Result (list AuthRoutes.UserInfo).

Local Notation "'refresh_handler'" :=
  (AuthRoutes.refresh_handler library_by_id user_by_id).
Local Notation "'refresh_user'" := (AuthRoutes.refresh_user user_by_id).
Local Notation "'refresh'" := (AuthRoutes.refresh library_by_id user_by_id).

Lemma refresh_user_slots (s : Session) :
  sess_owner (snd (refresh_user s)) = sess_owner s /\
  sess_student (snd (refresh_user s)) = sess_student s /\
  slot_count (sess_user (snd (refresh_user s))) = slot_count (sess_user s) /\
  (res_status (fst (refresh_user s)) <> 200 -> snd (refresh_user s) = s).
Proof.
  unfold AuthRoutes.refresh_user.
  destruct (sess_user s) as [u|] eqn:Hu;
    [destruct (truthy (user_id u));
     [destruct (user_by_id (user_id u)) as [err | [|user rest]]|]|];
    simpl; rewrite ?Hu; repeat split; auto.
  intros H. now elim H.
Qed.

(** X18: the refresh handler rewrites at most one slot and never adds or
    removes a Principal: the Student slot is untouched, the number of
    active Principals is unchanged, the User slot is untouched whenever the
    session holds an Owner with a truthy id, and a refresh that does not
    answer 200 leaves the whole session as it was. *)
Theorem refresh_keeps_slots (s : Session) :
  sess_student (snd (refresh_handler s)) = sess_student s /\
  active_principals (snd (refresh_handler s)) = active_principals s /\
  (forall o, sess_owner s = Some o -> truthy (owner_id o) = true ->
     sess_user (snd (refresh_handler s)) = sess_user s) /\
  (res_status (fst (refresh_handler s)) <> 200 ->
   snd (refresh_handler s) = s).
Proof.
  unfold AuthRoutes.refresh_handler, active_principals.
  destruct (refresh_user_slots s) as [Huo [Hus [Huc Huf]]].
  destruct (sess_owner s) as [o|] eqn:Ho.
  2:{ rewrite Huo, Hus, Huc. repeat split; auto. discriminate. }
  destruct (truthy (owner_id o)) eqn:Hid.
  2:{ rewrite Huo, Hus, Huc. repeat split; auto.
      intros o' H. injection H as <-. congruence. }
  destruct (library_by_id (owner_id o)) as [err | [|library rest]]; simpl;
    rewrite ?Ho; repeat split; auto.
  intros H. now elim H.
Qed.

(** X19: a refresh makes the gates follow the database.  For a session
    without Owner whose User has a truthy id, when the lookup by that id
    returns a row the refresh answers 200 and afterwards a row with role
    'admin' passes every checkPermissions gate, any other row passes the
    AND gate iff its [permissions] column holds every required permission
    and any other gate iff it holds one of them, whatever the session held
    before. *)
Theorem refresh_then_gates (s : Session) (u : User)
    (user : AuthRoutes.UserInfo) (rest : list AuthRoutes.UserInfo)
    (required : list string) (logic : string) :
  sess_owner s = None -> sess_user s = Some u -> truthy (user_id u) = true ->
  user_by_id (user_id u) = Returns (user :: rest) ->
  let held := match AuthRoutes.ui_permissions user with
              | Some l => l
              | None => []
              end in
  let req := request_of (snd (refresh_handler s)) in
  res_status (fst (refresh_handler s)) = 200 /\
  (AuthRoutes.ui_role user = "admin" ->
   Auth.checkPermissions required logic req = Next req) /\
  (AuthRoutes.ui_role user <> "admin" -> toUpperCase logic = "AND" ->
   (Auth.checkPermissions required logic req = Next req <->
    held_all required held)) /\
  (AuthRoutes.ui_role user <> "admin" -> toUpperCase logic <> "AND" ->
   (Auth.checkPermissions required logic req = Next req <->
    held_any required held)).
Proof.
  intros Ho Hu Hid Hq held req. subst req.
  unfold AuthRoutes.refresh_handler, AuthRoutes.refresh_user.
  rewrite Ho, Hu, Hid, Hq. simpl.
  set (s' := Auth.set_session_user s (AuthRoutes.user_of_info user)).
  assert (Hs : req_session (request_of s') = Some s') by reflexivity.
  assert (Ho' : sess_owner s' = None) by exact Ho.
  assert (Hu' : sess_user s' = Some (AuthRoutes.user_of_info user))
    by reflexivity.
  split; [reflexivity|]. split; [|split].
  - intros Hr. unfold Auth.checkPermissions. rewrite Hs, Ho', Hu'. simpl.
    rewrite Hr. reflexivity.
  - intros Hr Hl.
    rewrite (checkPermissions_user_admits (request_of s') s'
               (AuthRoutes.user_of_info user) required logic Hs Ho' Hu' Hr).
    now apply hasPermission_AND.
  - intros Hr Hl.
    rewrite (checkPermissions_user_admits (request_of s') s'
               (AuthRoutes.user_of_info user) required logic Hs Ho' Hu' Hr).
    now apply hasPermission_not_AND.
Qed.

End Refresh.

Lemma refresh_keeps_slots_witness :
  sess_user (snd (AuthRoutes.refresh_handler sample_library_by_id
                    sample_user_by_id
                    (mkSession (Some sample_owner) (Some desk_user) None)))
    = Some desk_user.
Proof.
  exact (proj1 (proj2 (proj2 (refresh_keeps_slots sample_library_by_id
                                sample_user_by_id
                                (mkSession (Some sample_owner)
                                           (Some desk_user) None))))
           sample_owner eq_refl eq_refl).
Defined.

Lemma refresh_then_gates_witness :
  Branches.read_gate
    (request_of (snd (AuthRoutes.refresh_handler sample_library_by_id
                        sample_user_by_id desk_session)))
  <> Next (request_of (snd (AuthRoutes.refresh_handler sample_library_by_id
                              sample_user_by_id desk_session))) /\
  Branches.read_gate (request_of desk_session) = Next (request_of desk_session).
Proof.
  split; [|reflexivity].
  destruct (refresh_then_gates sample_library_by_id sample_user_by_id
              desk_session desk_user
              (AuthRoutes.mkUserInfo (JNum 4) "meena" "other" None) []
              ["manage_branches"; "manage_library_students"] "OR"
              eq_refl eq_refl eq_refl eq_refl) as [_ [_ [_ H]]].
  intros E. apply H in E; [|discriminate|discriminate].
  destruct E as [p [_ []]].
Defined.

Lemma authenticateAny_outcome (req : Request) :
  Auth.authenticateAny req = Next req \/
  Auth.authenticateAny req
    = Respond (json_message 401 "Unauthorized: Please log in.").
Proof.
  unfold Auth.authenticateAny.
  destruct (Auth.session_owner_with_id req),
    (Auth.session_user_with_id req), (Auth.session_student_with_id req);
    auto.
Qed.

Section RefreshRoute.

Variable library_by_id : JsVal -> Result (list AuthRoutes.LibraryInfo).
Variable user_by_id : JsVal -> Result (list AuthRoutes.UserInfo).

Local Notation "'refresh_handler'" :=
  (AuthRoutes.refresh_handler library_by_id user_by_id).
Local Notation "'refresh'" := (AuthRoutes.refresh library_by_id user_by_id).

Lemma refresh_handler_status (s : Session) :
  In (res_status (fst (refresh_handler s))) [200; 400; 404; 500] /\
  (res_status (fst (refresh_handler s)) = 500 ->
   fst (refresh_handler s) = AuthRoutes.internal_error) /\
  (res_status (fst (refresh_handler s)) <> 200 ->
   snd (refresh_handler s) = s).
Proof.
  unfold AuthRoutes.refresh_handler, AuthRoutes.refresh_user.
  destruct (sess_owner s) as [o|];
    [destruct (truthy (owner_id o));
     [destruct (library_by_id (owner_id o)) as [err | [|library rest]]|]|];
    simpl; try (repeat split; auto; try discriminate;
                intros H; now elim H);
    (destruct (sess_user s) as [u|];
     [destruct (truthy (user_id u));
      [destruct (user_by_id (user_id u)) as [err | [|user rest]]|]|]);
    simpl; repeat split; auto; try discriminate; intros H; now elim H.
Qed.

(** X20: the refresh route.  A request that authenticateAny rejects is
    answered 401; a session that holds only a Student with an id passes
    authenticateAny and is answered 400 'No active session to refresh.';
    a lookup that throws is answered 500 'Internal Server Error' with no
    [error] field; every answer is 200, 400, 401, 404 or 500, and every
    answer but 200 leaves the session as it was. *)
Theorem refresh_route (req : Request) :
  (Auth.authenticateAny req <> Next req ->
   refresh req
     = (json_message 401 "Unauthorized: Please log in.", req_session req)) /\
  (forall s st, req_session req = Some s -> sess_owner s = None ->
     sess_user s = None -> sess_student s = Some st ->
     truthy (student_id st) = true ->
     refresh req = (json_message 400 "No active session to refresh.", Some s)) /\
  (res_status (fst (refresh req)) = 500 ->
   fst (refresh req) = json_message 500 "Internal Server Error" /\
   res_error (fst (refresh req)) = None) /\
  In (res_status (fst (refresh req))) [200; 400; 401; 404; 500] /\
  (res_status (fst (refresh req)) <> 200 ->
   snd (refresh req) = req_session req).
Proof.
  unfold AuthRoutes.refresh.
  destruct (authenticateAny_outcome req) as [Hn | Hr].
  - rewrite Hn.
    assert (Hs : exists s, req_session req = Some s).
    { revert Hn. unfold Auth.authenticateAny, Auth.session_owner_with_id,
        Auth.session_user_with_id, Auth.session_student_with_id.
      destruct (req_session req) as [s|]; [eauto | discriminate]. }
    destruct Hs as [s Hs]. rewrite Hs.
    destruct (refresh_handler_status s) as [Hin [H500 Hkeep]].
    destruct (refresh_handler s) as [r s'] eqn:E. simpl in *.
    split; [|split; [|split; [|split]]].
    + intros H. now elim H.
    + intros s0 st Hs0 Ho Hu Hst Hid. injection Hs0 as <-.
      revert E. unfold AuthRoutes.refresh_handler, AuthRoutes.refresh_user.
      rewrite Ho, Hu. intros E. injection E as <- <-. reflexivity.
    + intros H. rewrite (H500 H). split; reflexivity.
    + destruct Hin as [<- | [<- | [<- | [<- | []]]]]; auto 10.
    + intros H. now rewrite (Hkeep H).
  - rewrite Hr. simpl. split; [|split; [|split; [|split]]].
    + reflexivity.
    + intros s st Hs Ho Hu Hst' Hid. exfalso. revert Hr.
      unfold Auth.authenticateAny, Auth.session_owner_with_id,
        Auth.session_user_with_id, Auth.session_student_with_id.
      rewrite Hs, Ho, Hu, Hst', Hid. discriminate.
    + discriminate.
    + auto 10.
    + reflexivity.
Qed.

(** X21: refreshing is idempotent when the lookups honour their WHERE
    clause.  If every row the two lookups return carries the id that was
    asked for, a second refresh right after the first gives the same
    answer and the same session as the first. *)
Theorem refresh_idempotent (s : Session) :
  (forall id library rest,
     library_by_id id = Returns (library :: rest) ->
     AuthRoutes.li_id library = id) ->
  (forall id user rest,
     user_by_id id = Returns (user :: rest) -> AuthRoutes.ui_id user = id) ->
  refresh_handler (snd (refresh_handler s)) = refresh_handler s.
Proof.
  intros Hlib Husr.
  unfold AuthRoutes.refresh_handler, AuthRoutes.refresh_user.
  destruct (sess_owner s) as [o|] eqn:Ho.
  - destruct (truthy (owner_id o)) eqn:Hid.
    + destruct (library_by_id (owner_id o)) as [err | [|library rest]] eqn:Hq;
        simpl; rewrite ?Ho, ?Hid, ?Hq; try reflexivity.
      pose proof (Hlib _ _ _ Hq) as Hsame.
      unfold AuthRoutes.owner_of_info at 1 2. simpl.
      rewrite Hsame, Hid, Hq. reflexivity.
    + destruct (sess_user s) as [u|] eqn:Hu;
        [destruct (truthy (user_id u)) eqn:Hidu;
         [destruct (user_by_id (user_id u)) as [err | [|user rest]] eqn:Hq|]|];
        simpl; rewrite ?Ho, ?Hid, ?Hu, ?Hidu, ?Hq; try reflexivity.
      pose proof (Husr _ _ _ Hq) as Hsame.
      rewrite Hsame, Hidu, Hq. reflexivity.
  - destruct (sess_user s) as [u|] eqn:Hu;
      [destruct (truthy (user_id u)) eqn:Hidu;
       [destruct (user_by_id (user_id u)) as [err | [|user rest]] eqn:Hq|]|];
      simpl; rewrite ?Ho, ?Hu, ?Hidu, ?Hq; try reflexivity.
    pose proof (Husr _ _ _ Hq) as Hsame.
    rewrite Hsame, Hidu, Hq. reflexivity.
Qed.

End RefreshRoute.

Lemma refresh_route_witness :
  AuthRoutes.refresh sample_library_by_id sample_user_by_id
    (request_of student_session)
  = (json_message 400 "No active session to refresh.", Some student_session)
  /\
  fst (AuthRoutes.refresh sample_library_by_id sample_user_by_id
         (request_of staff_session))
  = json_message 500 "Internal Server Error".
Proof.
  split.
  - exact (proj1 (proj2 (refresh_route sample_library_by_id sample_user_by_id
                           (request_of student_session)))
             student_session sample_student
             eq_refl eq_refl eq_refl eq_refl eq_refl).
  - exact (proj1 (proj1 (proj2 (proj2
             (refresh_route sample_library_by_id sample_user_by_id
                (request_of staff_session)))) eq_refl)).
Defined.

Ltac by_positive_cases :=
  repeat match goal with
         | p : positive |- _ => destruct p; simpl in *; try discriminate
         end.

Lemma sample_library_by_id_where (id : JsVal)
    (library : AuthRoutes.LibraryInfo) (rest : list AuthRoutes.LibraryInfo) :
  sample_library_by_id id = Returns (library :: rest) ->
  AuthRoutes.li_id library = id.
Proof.
  destruct id as [| | [|p|p] | str]; simpl; try discriminate.
  by_positive_cases. intros H. injection H as <- _. reflexivity.
Qed.

Lemma sample_user_by_id_where (id : JsVal)
    (user : AuthRoutes.UserInfo) (rest : list AuthRoutes.UserInfo) :
  sample_user_by_id id = Returns (user :: rest) ->
  AuthRoutes.ui_id user = id.
Proof.
  destruct id as [| | [|p|p] | str]; simpl; try discriminate.
  by_positive_cases. intros H. injection H as <- _. reflexivity.
Qed.

Lemma refresh_idempotent_witness :
  AuthRoutes.refresh_handler sample_library_by_id sample_user_by_id
    (snd (AuthRoutes.refresh_handler sample_library_by_id sample_user_by_id
            owner_session))
  = AuthRoutes.refresh_handler sample_library_by_id sample_user_by_id
      owner_session.
Proof.
  exact (refresh_idempotent sample_library_by_id sample_user_by_id
           owner_session sample_library_by_id_where sample_user_by_id_where).
Defined.

(** ** The validators *)

Lemma app_empty (a b : string) : a ++ b = "" -> a = "" /\ b = "".
Proof.
  destruct a; simpl; [auto | discriminate].
Qed.

Lemma nullable_Lang (r : Regex.Regex) :
  Regex.nullable r = true <-> Lang r "".
Proof.
  induction r as [| | p min max | r1 IH1 r2 IH2 | r1 IH1 r2 IH2]; simpl.
  - split; [discriminate | contradiction].
  - split; reflexivity.
  - rewrite Nat.eqb_eq. split.
    + intros ->. repeat split; [lia|]. destruct max; simpl; lia.
    + intros [_ [H _]]. lia.
  - rewrite andb_true_iff, IH1, IH2. split.
    + intros [H1 H2]. exists "", "". auto.
    + intros [s1 [s2 [H [H1 H2]]]]. symmetry in H.
      apply app_empty in H. destruct H as [-> ->]. auto.
  - rewrite orb_true_iff, IH1, IH2. reflexivity.
Qed.

Lemma deriv_Lang (c : ascii) (r : Regex.Regex) (s : string) :
  Lang (Regex.deriv c r) s <-> Lang r (String c s).
Proof.
  revert s.
  induction r as [| | p min max | r1 IH1 r2 IH2 | r1 IH1 r2 IH2];
    intros s; simpl.
  - reflexivity.
  - split; [contradiction | discriminate].
  - destruct (p c); simpl.
    2:{ split; [contradiction | intros [H _]; discriminate H]. }
    destruct max as [[|m]|]; simpl.
    + split; [contradiction | intros [_ [_ H]]; lia].
    + split; intros [Ha [Hmin Hmax]]; repeat split; auto; lia.
    + split; intros [Ha [Hmin _]]; repeat split; auto; lia.
  - split.
    + intros [[s1 [s2 [-> [H1 H2]]]] | H].
      * exists (String c s1), s2. apply IH1 in H1. auto.
      * destruct (Regex.nullable r1) eqn:Hn; [|contradiction].
        apply nullable_Lang in Hn. apply IH2 in H.
        exists "", (String c s). auto.
    + intros [s1 [s2 [H [H1 H2]]]]. destruct s1 as [|d s1]; simpl in H.
      * right. subst s2. apply nullable_Lang in H1. rewrite H1.
        now apply IH2.
      * left. injection H as <- ->. exists s1, s2. apply IH1 in H1. auto.
  - rewrite IH1, IH2. reflexivity.
Qed.

(** The matcher decides the language. *)
Lemma test_Lang (r : Regex.Regex) (s : string) :
  Regex.test r s = true <-> Lang r s.
Proof.
  revert r. induction s as [|c s IH]; intros r; simpl.
  - apply nullable_Lang.
  - rewrite IH. apply deriv_Lang.
Qed.

Lemma all_chars_app (p : ascii -> bool) (a b : string) :
  all_chars p (a ++ b) = all_chars p a && all_chars p b.
Proof.
  induction a as [|c a IH]; simpl; [reflexivity|].
  now rewrite IH, andb_assoc.
Qed.

Lemma Lang_one (p : ascii -> bool) (s : string) :
  Lang (Regex.one p) s <-> exists c, s = String c "" /\ p c = true.
Proof.
  unfold Regex.one. simpl. split.
  - intros [Ha [Hmin Hmax]]. destruct s as [|c [|d s]]; simpl in *; try lia.
    exists c. rewrite andb_true_r in Ha. auto.
  - intros [c [-> Hp]]. simpl. rewrite Hp. repeat split; lia.
Qed.

Lemma Lang_plus (p : ascii -> bool) (s : string) :
  Lang (Regex.plus p) s <-> s <> "" /\ all_chars p s = true.
Proof.
  unfold Regex.plus. simpl. split.
  - intros [Ha [Hmin _]]. split; [|exact Ha]. intros ->. simpl in Hmin. lia.
  - intros [Hne Ha]. repeat split; [exact Ha|].
    destruct s; [now elim Hne | simpl; lia].
Qed.

Lemma phoneRegex_Lang (s : string) :
  Regex.test Regex.phoneRegex s = true <->
  String.length s = 10 /\ all_chars Regex.is_digit s = true.
Proof.
  rewrite test_Lang. unfold Regex.phoneRegex. simpl.
  split; [intros [Ha [H1 H2]] | intros [Hl Ha]]; repeat split; auto; lia.
Qed.

Lemma digits_ascii_only (s : string) :
  all_chars Regex.is_digit s = true -> ascii_only s = true.
Proof.
  unfold ascii_only. induction s as [|c s IH]; simpl; [reflexivity|].
  rewrite !andb_true_iff. intros [Hc Hs]. split; [|auto].
  revert Hc. destruct c as [[] [] [] [] [] [] [] []]; vm_compute; congruence.
Qed.

(** X22: the phone check [/^[0-9]{10}$/] accepts exactly the strings of
    ten characters that are all digits 0-9; what it accepts is made of
    ASCII characters only, and a string of any other length is refused
    whatever it holds. *)
Theorem phoneRegex_accepts (s : string) :
  (Regex.test Regex.phoneRegex s = true <->
   String.length s = 10 /\ all_chars Regex.is_digit s = true) /\
  (Regex.test Regex.phoneRegex s = true -> ascii_only s = true) /\
  (String.length s <> 10 -> Regex.test Regex.phoneRegex s = false).
Proof.
  split; [apply phoneRegex_Lang|]. split.
  - intros H. apply phoneRegex_Lang in H. now apply digits_ascii_only.
  - intros Hne. destruct (Regex.test Regex.phoneRegex s) eqn:H;
      [|reflexivity].
    apply phoneRegex_Lang in H. destruct H as [H _]. contradiction.
Qed.

Lemma phoneRegex_accepts_witness :
  Regex.test Regex.phoneRegex "90000 0007" = false /\
  Regex.test Regex.phoneRegex "900000007" = false.
Proof.
  split.
  - destruct (Regex.test Regex.phoneRegex "90000 0007") eqn:H;
      [|reflexivity].
    apply (proj1 (phoneRegex_accepts "90000 0007")) in H.
    destruct H as [_ H]. discriminate H.
  - apply (proj2 (proj2 (phoneRegex_accepts "900000007"))). discriminate.
Defined.

Lemma emailRegex_Lang (s : string) :
  Lang Regex.emailRegex s <-> email_shape s.
Proof.
  unfold Regex.emailRegex, email_shape. cbn [Lang]. split.
  - intros [l [r1 [-> [Hl [a [r2 [-> [Ha [d [r3 [-> [Hd [dot [t [-> [Hdot Ht]]]]]]]]]]]]]]]].
    apply Lang_plus in Hl, Hd, Ht. apply Lang_one in Ha, Hdot.
    destruct Ha as [ca [-> Hca]]. destruct Hdot as [cd [-> Hcd]].
    apply Ascii.eqb_eq in Hca, Hcd. subst ca cd.
    exists l, d, t. simpl. tauto.
  - intros [l [d [t [-> [Hl [Hd [Ht [Hal [Had Hat]]]]]]]]].
    exists l, ("@" ++ d ++ "." ++ t). split; [reflexivity|].
    split; [apply Lang_plus; auto|].
    exists "@", (d ++ "." ++ t). split; [reflexivity|].
    split; [apply Lang_one; exists "@"%char; auto|].
    exists d, ("." ++ t). split; [reflexivity|].
    split; [apply Lang_plus; auto|].
    exists ".", t. split; [reflexivity|].
    split; [apply Lang_one; exists "."%char; auto | apply Lang_plus; auto].
Qed.

(** X23: on an address of ASCII characters the email check
    [/^[^\s@]+@[^\s@]+\.[^\s@]+$/] accepts exactly the strings
    local@domain.tld whose three parts are non-empty and contain neither
    white space nor [@]; an accepted address therefore has exactly one
    [@]. *)
Theorem emailRegex_accepts (s : string) :
  ascii_only s = true ->
  (Regex.test Regex.emailRegex s = true <-> email_shape s) /\
  (Regex.test Regex.emailRegex s = true ->
   exists local rest,
     s = local ++ "@" ++ rest /\
     all_chars (fun c => negb (Ascii.eqb c "@")) local = true /\
     all_chars (fun c => negb (Ascii.eqb c "@")) rest = true).
Proof.
  intros _.
  assert (Hno : forall x, all_chars Regex.not_space_at x = true ->
                 all_chars (fun c => negb (Ascii.eqb c "@")) x = true).
  { induction x as [|c x IH]; simpl; [reflexivity|].
    rewrite !andb_true_iff. intros [Hc Hx]. split; [|auto].
    unfold Regex.not_space_at in Hc. rewrite negb_orb in Hc.
    apply andb_true_iff in Hc. tauto. }
  split; [rewrite test_Lang; apply emailRegex_Lang|].
  intros H. apply test_Lang, emailRegex_Lang in H.
  destruct H as [l [d [t [-> [_ [_ [_ [Hl [Hd Ht]]]]]]]]].
  exists l, (d ++ "." ++ t). split; [reflexivity|]. split; [auto|].
  rewrite all_chars_app. simpl. rewrite (Hno d Hd), (Hno t Ht). reflexivity.
Qed.

Lemma emailRegex_accepts_witness :
  Regex.test Regex.emailRegex "asha@example.org" = true.
Proof.
  apply (proj1 (emailRegex_accepts "asha@example.org" eq_refl)).
  exists "asha", "example", "org". repeat split; discriminate.
Defined.

Lemma upper_or_digit_upper (c : ascii) :
  Regex.upper_or_digit (upper_ascii c) = is_alnum c.
Proof.
  destruct c as [[] [] [] [] [] [] [] []]; reflexivity.
Qed.

Lemma upper_lower_ascii (c : ascii) :
  upper_ascii (lower_ascii c) = upper_ascii c.
Proof.
  destruct c as [[] [] [] [] [] [] [] []]; reflexivity.
Qed.

Lemma toUpperCase_toLowerCase (s : string) :
  toUpperCase (toLowerCase s) = toUpperCase s.
Proof.
  induction s as [|c s IH]; simpl; [reflexivity|].
  now rewrite upper_lower_ascii, IH.
Qed.

Lemma length_toUpperCase (s : string) :
  String.length (toUpperCase s) = String.length s.
Proof.
  induction s as [|c s IH]; simpl; [reflexivity | now rewrite IH].
Qed.

Lemma all_chars_toUpperCase (s : string) :
  all_chars Regex.upper_or_digit (toUpperCase s) = all_chars is_alnum s.
Proof.
  induction s as [|c s IH]; simpl; [reflexivity|].
  now rewrite upper_or_digit_upper, IH.
Qed.

(** The code check on the upper-cased code, read on the code itself. *)
Lemma codeRegex_toUpperCase (code : string) :
  Regex.test Regex.codeRegex (toUpperCase code) = true <->
  3 <= String.length code <= 20 /\ all_chars is_alnum code = true.
Proof.
  rewrite test_Lang. unfold Regex.codeRegex. simpl.
  rewrite length_toUpperCase, all_chars_toUpperCase. tauto.
Qed.

Lemma catch_status_error (err : string) :
  res_status (OwnerRoutes.register_catch err) = 500 /\
  res_error (OwnerRoutes.register_catch err) = Some err /\
  res_status (OwnerRoutes.check_code_catch err) = 500 /\
  res_error (OwnerRoutes.check_code_catch err) = Some err.
Proof.
  unfold OwnerRoutes.register_catch, OwnerRoutes.check_code_catch.
  destruct (OwnerAuth.isDbAuthError err); repeat split.
Qed.

Section CheckCode.

Variable ids_by_code : string -> Result (list JsVal).

Local Notation "'check_code'" := (OwnerRoutes.check_code ids_by_code).

(** X24: the code check, for a code of ASCII characters.  It answers 400
    exactly when the code is not 3 to 20 letters and digits; otherwise it
    looks the upper-cased code up, answers with that upper-cased code and
    [available] true exactly when the lookup returns no row, and answers
    500 with the error message when the lookup throws.  The letter case of
    the code makes no difference to the answer. *)
Theorem check_code_accepts (code : string) :
  ascii_only code = true ->
  (check_code code
     = OwnerRoutes.CheckFailed
         (json_message 400
            "Library code must be 3-20 characters, letters and numbers only.")
   <-> ~ (3 <= String.length code <= 20 /\ all_chars is_alnum code = true)) /\
  (forall rows,
     3 <= String.length code <= 20 -> all_chars is_alnum code = true ->
     ids_by_code (toUpperCase code) = Returns rows ->
     exists available,
       check_code code = OwnerRoutes.CodeChecked available (toUpperCase code)
       /\ (available = true <-> rows = [])) /\
  (forall err,
     3 <= String.length code <= 20 -> all_chars is_alnum code = true ->
     ids_by_code (toUpperCase code) = Throws err ->
     exists r, check_code code = OwnerRoutes.CheckFailed r /\
               res_status r = 500 /\ res_error r = Some err) /\
  check_code (toLowerCase code) = check_code code /\
  check_code (toUpperCase code) = check_code code.
Proof.
  intros _. unfold OwnerRoutes.check_code.
  pose proof (codeRegex_toUpperCase code) as Hcode.
  split; [|split; [|split; [|split]]].
  - destruct (Regex.test Regex.codeRegex (toUpperCase code)); simpl.
    + split; [|intros H; elim H; now apply Hcode].
      destruct (ids_by_code (toUpperCase code)) as [err|rows];
        [|discriminate].
      intros H. injection H as H.
      pose proof (catch_status_error err) as [_ [_ [Hs _]]].
      rewrite H in Hs. discriminate Hs.
    + split; [|reflexivity]. intros _ H. apply Hcode in H. discriminate H.
  - intros rows Hlen Hal Hq.
    assert (Ht : Regex.test Regex.codeRegex (toUpperCase code) = true)
      by (apply Hcode; auto).
    rewrite Ht, Hq. simpl. eexists. split; [reflexivity|].
    destruct rows; simpl; split; congruence.
  - intros err Hlen Hal Hq.
    assert (Ht : Regex.test Regex.codeRegex (toUpperCase code) = true)
      by (apply Hcode; auto).
    rewrite Ht, Hq. simpl. eexists. split; [reflexivity|].
    pose proof (catch_status_error err) as [_ [_ [Hs He]]]. auto.
  - now rewrite toUpperCase_toLowerCase.
  - assert (Hidem : toUpperCase (toUpperCase code) = toUpperCase code).
    { rewrite <- (toUpperCase_toLowerCase (toUpperCase code)).
      rewrite toLowerCase_toUpperCase. apply toUpperCase_toLowerCase. }
    now rewrite Hidem.
Qed.

End CheckCode.

Lemma check_code_accepts_witness :
  exists available,
    OwnerRoutes.check_code no_ids "lib007"
      = OwnerRoutes.CodeChecked available "LIB007" /\
    (available = true <-> @nil JsVal = []).
Proof.
  assert (Hlen : 3 <= String.length "lib007" <= 20) by (simpl; lia).
  exact (proj1 (proj2 (check_code_accepts no_ids "lib007" eq_refl))
           [] Hlen eq_refl eq_refl).
Defined.

(** ** Registration *)

Section Register.

Variable ids_by_phone : string -> Result (list JsVal).
Variable ids_by_code : string -> Result (list JsVal).
Variable generate_library_code : Result string.
Variable bcrypt_hash : string -> nat -> Result string.
Variable start_now end_now : Z.
Variable setDate_plus : Z -> Z -> Z.
Variable insert_library :
  OwnerRoutes.InsertArgs -> Result OwnerRoutes.NewLibrary.

Local Notation "'register'" :=
  (OwnerRoutes.register ids_by_phone ids_by_code generate_library_code
     bcrypt_hash start_now end_now setDate_plus insert_library).
Local Notation "'finalLibraryCode'" :=
  (OwnerRoutes.finalLibraryCode ids_by_code generate_library_code).

Lemma no_rows {A} (rows : list A) :
  (0 <? List.length rows)%nat = false -> rows = [].
Proof.
  destruct rows; [reflexivity | discriminate].
Qed.

(** The code the registration settles on. *)
Lemma finalLibraryCode_inr (libraryCode : option string) (code : string) :
  finalLibraryCode libraryCode = inr code ->
  (truthy_field libraryCode = true /\
   code = toUpperCase (field_value libraryCode) /\
   Regex.test Regex.codeRegex code = true /\
   ids_by_code code = Returns []) \/
  (truthy_field libraryCode = false /\ generate_library_code = Returns code).
Proof.
  unfold OwnerRoutes.finalLibraryCode.
  destruct (truthy_field libraryCode).
  - destruct (Regex.test Regex.codeRegex _) eqn:Ht; simpl; [|discriminate].
    destruct (ids_by_code _) as [err|rows] eqn:Hq; [discriminate|].
    destruct (0 <? List.length rows)%nat eqn:Hrows; [discriminate|].
    intros H. injection H as <-. apply no_rows in Hrows. subst rows.
    left. auto.
  - destruct generate_library_code as [err|c]; [discriminate|].
    intros H. injection H as <-. right. auto.
Qed.

(** Unfolding the registration up to the database, when the local checks
    pass. *)
Lemma register_local_checks (body : OwnerRoutes.RegisterBody) :
  (exists msg, register body = (OwnerRoutes.RegisterFailed
                                  (json_message 400 msg), None) /\
               ~ locally_valid body) \/
  (locally_valid body /\
   register body =
     match ids_by_phone (field_value (OwnerRoutes.ownerPhone body)) with
     | Throws err =>
         (OwnerRoutes.RegisterFailed (OwnerRoutes.register_catch err), None)
     | Returns phoneRows =>
         if (0 <? List.length phoneRows)%nat
         then (OwnerRoutes.RegisterFailed
                 (json_message 400 "Phone number already registered"), None)
         else
           match finalLibraryCode (OwnerRoutes.libraryCode body) with
           | inl r => (OwnerRoutes.RegisterFailed r, None)
           | inr code =>
               match bcrypt_hash (field_value (OwnerRoutes.password body)) 10
               with
               | Throws err =>
                   (OwnerRoutes.RegisterFailed
                      (OwnerRoutes.register_catch err), None)
               | Returns hashedPassword =>
                   let args :=
                     OwnerRoutes.mkInsertArgs code
                       (field_value (OwnerRoutes.libraryName body))
                       (field_value (OwnerRoutes.ownerName body))
                       (field_value (OwnerRoutes.ownerEmail body))
                       (field_value (OwnerRoutes.ownerPhone body))
                       hashedPassword "free_trial" start_now
                       (setDate_plus 7 end_now) true true in
                   match insert_library args with
                   | Throws err =>
                       (OwnerRoutes.RegisterFailed
                          (OwnerRoutes.register_catch err), Some args)
                   | Returns newLibrary =>
                       (OwnerRoutes.Registered
                          (OwnerRoutes.mkRegisteredLibrary
                             (OwnerRoutes.new_id newLibrary)
                             (OwnerRoutes.new_library_code newLibrary)
                             (OwnerRoutes.new_library_name newLibrary)
                             (OwnerRoutes.new_owner_name newLibrary)
                             (OwnerRoutes.new_owner_email newLibrary)
                             (OwnerRoutes.new_created_at newLibrary)),
                        Some args)
                   end
               end
           end
     end).
Proof.
  unfold OwnerRoutes.register, locally_valid.
  destruct (truthy_field (OwnerRoutes.ownerName body));
    [|left; eexists; split; [reflexivity | intros [H _]; discriminate H]].
  destruct (truthy_field (OwnerRoutes.ownerEmail body));
    [|left; eexists; split; [reflexivity | intros [_ [H _]]; discriminate H]].
  destruct (truthy_field (OwnerRoutes.ownerPhone body));
    [|left; eexists; split;
      [reflexivity | intros [_ [_ [H _]]]; discriminate H]].
  destruct (truthy_field (OwnerRoutes.libraryName body));
    [|left; eexists; split;
      [reflexivity | intros [_ [_ [_ [H _]]]]; discriminate H]].
  destruct (truthy_field (OwnerRoutes.password body));
    [|left; eexists; split;
      [reflexivity | intros [_ [_ [_ [_ [H _]]]]]; discriminate H]].
  destruct (truthy_field (OwnerRoutes.confirmPassword body));
    [|left; eexists; split;
      [reflexivity | intros [_ [_ [_ [_ [_ [H _]]]]]]; discriminate H]].
  cbn [negb orb].
  destruct (String.eqb_spec (field_value (OwnerRoutes.password body))
              (field_value (OwnerRoutes.confirmPassword body))) as [Heq|Hne];
    cbn [negb];
    [|left; eexists; split;
      [reflexivity | intros [_ [_ [_ [_ [_ [_ [H _]]]]]]]; contradiction]].
  destruct (Nat.ltb_spec
              (String.length (field_value (OwnerRoutes.password body))) 6)
    as [Hlt|Hge];
    [left; eexists; split;
      [reflexivity | intros [_ [_ [_ [_ [_ [_ [_ [H _]]]]]]]]; lia]|].
  destruct (Regex.test Regex.emailRegex _) eqn:Hem; cbn [negb];
    [|left; eexists; split;
      [reflexivity
      | intros [_ [_ [_ [_ [_ [_ [_ [_ [H _]]]]]]]]];
        apply emailRegex_Lang, test_Lang in H; congruence]].
  destruct (Regex.test Regex.phoneRegex _) eqn:Hph; cbn [negb];
    [|left; eexists; split;
      [reflexivity
      | intros [_ [_ [_ [_ [_ [_ [_ [_ [_ H]]]]]]]]];
        apply phoneRegex_Lang in H; congruence]].
  right. apply test_Lang, emailRegex_Lang in Hem.
  apply phoneRegex_Lang in Hph. destruct Hph as [Hl Hd].
  split; [repeat split; auto | reflexivity].
Qed.

(** X25: the registration sends the INSERT only for a body that passed
    every check.  When an INSERT was sent, all six required fields are
    present, the two passwords are equal and at least six characters long,
    the email has the shape local@domain.tld, the phone is ten digits and
    the phone lookup returned no row; the stored password is what bcrypt
    returned for the password with 10 rounds, the plan is 'free_trial' with
    both flags set and the end date is the second clock reading moved by
    seven days; the stored code is either the supplied code in upper case,
    which then matches the code pattern and was found free, or, when no
    code was supplied, the generated one. *)
Theorem register_inserts_only_valid (body : OwnerRoutes.RegisterBody)
    (args : OwnerRoutes.InsertArgs) :
  body_ascii_only body = true ->
  snd (register body) = Some args ->
  locally_valid body /\
  ids_by_phone (field_value (OwnerRoutes.ownerPhone body)) = Returns [] /\
  bcrypt_hash (field_value (OwnerRoutes.password body)) 10
    = Returns (OwnerRoutes.ins_password args) /\
  OwnerRoutes.ins_owner_phone args = field_value (OwnerRoutes.ownerPhone body) /\
  OwnerRoutes.ins_owner_email args = field_value (OwnerRoutes.ownerEmail body) /\
  OwnerRoutes.ins_owner_name args = field_value (OwnerRoutes.ownerName body) /\
  OwnerRoutes.ins_library_name args
    = field_value (OwnerRoutes.libraryName body) /\
  OwnerRoutes.ins_subscription_plan args = "free_trial" /\
  OwnerRoutes.ins_is_trial args = true /\
  OwnerRoutes.ins_is_subscription_active args = true /\
  OwnerRoutes.ins_subscription_start_date args = start_now /\
  OwnerRoutes.ins_subscription_end_date args = setDate_plus 7 end_now /\
  ((truthy_field (OwnerRoutes.libraryCode body) = true /\
    OwnerRoutes.ins_library_code args
      = toUpperCase (field_value (OwnerRoutes.libraryCode body)) /\
    3 <= String.length (field_value (OwnerRoutes.libraryCode body)) <= 20 /\
    all_chars is_alnum (field_value (OwnerRoutes.libraryCode body)) = true /\
    ids_by_code (OwnerRoutes.ins_library_code args) = Returns []) \/
   (truthy_field (OwnerRoutes.libraryCode body) = false /\
    generate_library_code = Returns (OwnerRoutes.ins_library_code args))).
Proof.
  intros _.
  destruct (register_local_checks body) as [[msg [-> _]] | [Hv ->]];
    [discriminate|].
  destruct (ids_by_phone _) as [err|phoneRows] eqn:Hq; [discriminate|].
  destruct (0 <? List.length phoneRows)%nat eqn:Hrows; [discriminate|].
  apply no_rows in Hrows. subst phoneRows.
  destruct (finalLibraryCode (OwnerRoutes.libraryCode body))
    as [r|code] eqn:Hcode; [discriminate|].
  destruct (bcrypt_hash _ 10) as [err|hashedPassword] eqn:Hh; [discriminate|].
  cbv zeta.
  assert (Hc := finalLibraryCode_inr _ _ Hcode).
  destruct (insert_library _) as [err|newLibrary]; simpl;
    intros H; injection H as <-; simpl;
    (split; [exact Hv|]); repeat (split; [reflexivity|]);
    (destruct Hc as [[Ht [Hu [Hr Hf]]] | [Hf Hg]]; [left | right; auto]);
    subst code; apply codeRegex_toUpperCase in Hr; tauto.
Qed.

(** X26: the registration answers 201 exactly when the INSERT was sent and
    returned its row, and the library of the answer then has the id, code,
    names, email and creation time of that row; an INSERT that throws is
    answered 500 with the error message; every answer is 201, 400 or
    500. *)
Theorem register_outcome (body : OwnerRoutes.RegisterBody) :
  (OwnerRoutes.register_status (fst (register body)) = 201 <->
   exists args newLibrary,
     snd (register body) = Some args /\
     insert_library args = Returns newLibrary) /\
  (forall args newLibrary,
     snd (register body) = Some args ->
     insert_library args = Returns newLibrary ->
     fst (register body)
       = OwnerRoutes.Registered
           (OwnerRoutes.mkRegisteredLibrary
              (OwnerRoutes.new_id newLibrary)
              (OwnerRoutes.new_library_code newLibrary)
              (OwnerRoutes.new_library_name newLibrary)
              (OwnerRoutes.new_owner_name newLibrary)
              (OwnerRoutes.new_owner_email newLibrary)
              (OwnerRoutes.new_created_at newLibrary))) /\
  (forall args err,
     snd (register body) = Some args -> insert_library args = Throws err ->
     exists r, fst (register body) = OwnerRoutes.RegisterFailed r /\
               res_status r = 500 /\ res_error r = Some err) /\
  In (OwnerRoutes.register_status (fst (register body))) [201; 400; 500].
Proof.
  assert (Hcatch : forall err,
            res_status (OwnerRoutes.register_catch err) = 500 /\
            res_error (OwnerRoutes.register_catch err) = Some err).
  { intros err. destruct (catch_status_error err) as [H1 [H2 _]]. auto. }
  assert (Hfinal : forall lc r, finalLibraryCode lc = inl r ->
            res_status r = 400 \/ res_status r = 500).
  { intros lc r. unfold OwnerRoutes.finalLibraryCode.
    destruct (truthy_field lc).
    - destruct (negb _); [intros H; injection H as <-; auto|].
      destruct (ids_by_code _) as [err|rows].
      + intros H. injection H as <-. right. apply Hcatch.
      + destruct (0 <? _)%nat; [|discriminate].
        intros H. injection H as <-. auto.
    - destruct generate_library_code as [err|c]; [|discriminate].
      intros H. injection H as <-. right. apply Hcatch. }
  destruct (register_local_checks body) as [[msg [-> _]] | [_ ->]].
  { simpl. split; [|split; [|split]]; try discriminate; auto.
    split; [discriminate | intros [a [n [H _]]]; discriminate H]. }
  destruct (ids_by_phone _) as [err|phoneRows].
  { simpl. destruct (Hcatch err) as [-> _].
    split; [|split; [|split]]; try discriminate; auto.
    split; [discriminate | intros [a [n [H _]]]; discriminate H]. }
  destruct (0 <? List.length phoneRows)%nat.
  { simpl. split; [|split; [|split]]; try discriminate; auto.
    split; [discriminate | intros [a [n [H _]]]; discriminate H]. }
  destruct (finalLibraryCode (OwnerRoutes.libraryCode body))
    as [r|code] eqn:Hcode.
  { simpl. split; [|split; [|split]]; try discriminate.
    - split; [|intros [a [n [H _]]]; discriminate H].
      destruct (Hfinal _ _ Hcode) as [-> | ->]; discriminate.
    - destruct (Hfinal _ _ Hcode) as [-> | ->]; auto. }
  destruct (bcrypt_hash _ 10) as [err|hashedPassword].
  { simpl. destruct (Hcatch err) as [-> _].
    split; [|split; [|split]]; try discriminate; auto.
    split; [discriminate | intros [a [n [H _]]]; discriminate H]. }
  cbv zeta. destruct (insert_library _) as [err|newLibrary] eqn:Hins; simpl.
  - destruct (Hcatch err) as [Hs He]. rewrite Hs.
    split; [|split; [|split]]; auto.
    + split; [discriminate|]. intros [a [n [H Hi]]]. injection H as <-.
      congruence.
    + intros a n H Hi. injection H as <-. congruence.
    + intros a e H Hi. injection H as <-. rewrite Hins in Hi.
      injection Hi as <-. eauto.
  - split; [|split; [|split]]; auto.
    + split; [|reflexivity]. intros _. eauto.
    + intros a n H Hi. injection H as <-. rewrite Hins in Hi.
      injection Hi as <-. reflexivity.
    + intros a e H Hi. injection H as <-. congruence.
Qed.

End Register.

Ltac reject_with_400 :=
  eexists; intros; unfold OwnerRoutes.register;
  repeat match goal with
         | H : _ = _ |- _ => rewrite H
         end;
  reflexivity.

(** X27: a body that fails one of the checks made before the database is
    asked (a missing field, unequal passwords, a password under six
    characters, an email or a phone of the wrong shape) is answered 400
    and sends no INSERT, and the answer is the same whatever the database,
    bcrypt and the clock would return. *)
Theorem register_rejects_locally (body : OwnerRoutes.RegisterBody) :
  body_ascii_only body = true ->
  ~ locally_valid body ->
  exists msg,
    forall ids_by_phone ids_by_code generate_library_code bcrypt_hash
           start_now end_now setDate_plus insert_library,
      OwnerRoutes.register ids_by_phone ids_by_code generate_library_code
        bcrypt_hash start_now end_now setDate_plus insert_library body
      = (OwnerRoutes.RegisterFailed (json_message 400 msg), None).
Proof.
  intros _ Hinv.
  destruct (truthy_field (OwnerRoutes.ownerName body)) eqn:H1;
    [|reject_with_400].
  destruct (truthy_field (OwnerRoutes.ownerEmail body)) eqn:H2;
    [|reject_with_400].
  destruct (truthy_field (OwnerRoutes.ownerPhone body)) eqn:H3;
    [|reject_with_400].
  destruct (truthy_field (OwnerRoutes.libraryName body)) eqn:H4;
    [|reject_with_400].
  destruct (truthy_field (OwnerRoutes.password body)) eqn:H5;
    [|reject_with_400].
  destruct (truthy_field (OwnerRoutes.confirmPassword body)) eqn:H6;
    [|reject_with_400].
  destruct (field_value (OwnerRoutes.password body)
            =? field_value (OwnerRoutes.confirmPassword body)) eqn:H7;
    [|reject_with_400].
  destruct (String.length (field_value (OwnerRoutes.password body)) <? 6)%nat
    eqn:H8; [reject_with_400|].
  destruct (Regex.test Regex.emailRegex
              (field_value (OwnerRoutes.ownerEmail body))) eqn:H9;
    [|reject_with_400].
  destruct (Regex.test Regex.phoneRegex
              (field_value (OwnerRoutes.ownerPhone body))) eqn:H10;
    [|reject_with_400].
  elim Hinv. unfold locally_valid.
  apply String.eqb_eq in H7. apply Nat.ltb_ge in H8.
  apply test_Lang, emailRegex_Lang in H9. apply phoneRegex_Lang in H10.
  tauto.
Qed.

Lemma register_inserts_only_valid_witness :
  locally_valid sample_body /\
  no_ids "LIB007" = Returns [].
Proof.
  destruct (register_inserts_only_valid no_ids no_ids (Returns "GEN001")
              sample_hash 1000 1000 plus_days sample_insert
              sample_body sample_args eq_refl eq_refl)
    as [Hv [_ [_ [_ [_ [_ [_ [_ [_ [_ [_ [_ Hc]]]]]]]]]]]].
  split; [exact Hv|].
  destruct Hc as [[_ [_ [_ [_ H]]]] | [H _]]; [exact H | discriminate H].
Defined.

Lemma register_outcome_witness :
  OwnerRoutes.register_status
    (fst (OwnerRoutes.register no_ids no_ids (Returns "GEN001") sample_hash
            1000 1000 plus_days sample_insert sample_body)) = 201.
Proof.
  apply (proj1 (register_outcome no_ids no_ids (Returns "GEN001") sample_hash
                  1000 1000 plus_days sample_insert sample_body)).
  exists sample_args. eexists. split; reflexivity.
Defined.

Lemma register_rejects_locally_witness :
  exists msg,
    forall ids_by_phone ids_by_code generate_library_code bcrypt_hash
           start_now end_now setDate_plus insert_library,
      OwnerRoutes.register ids_by_phone ids_by_code generate_library_code
        bcrypt_hash start_now end_now setDate_plus insert_library
        short_password_body
      = (OwnerRoutes.RegisterFailed (json_message 400 msg), None).
Proof.
  apply (register_rejects_locally short_password_body eq_refl).
  intros [_ [_ [_ [_ [_ [_ [_ [H _]]]]]]]]. simpl in H. lia.
Defined.

(** ** The branches router *)

Section BranchRouter.

Variable select_branches : JsVal -> Result (list BranchRoutes.Branch).
Variable insert_branch : JsVal -> JsVal -> JsVal -> Result BranchRoutes.Branch.
Variable update_branch :
  JsVal -> JsVal -> string -> JsVal -> Result (list BranchRoutes.Branch).
Variable delete_branch : string -> JsVal -> Result (list BranchRoutes.Branch).

Local Notation "'get_branches'" := (BranchRoutes.get_branches select_branches).
Local Notation "'post_branch'" := (BranchRoutes.post_branch insert_branch).
Local Notation "'put_branch'" := (BranchRoutes.put_branch update_branch).
Local Notation "'delete_branch_route'" :=
  (BranchRoutes.delete_branch_route delete_branch).

(** X28: the branches router for a User who is not an admin, in a session
    without Owner.  Listing is answered 403 exactly when the User holds
    neither manage_branches nor manage_library_students; creating,
    updating and deleting are answered 403 exactly when the User does not
    hold manage_branches, whatever the body and the id, and before any
    statement is sent.  An admitted request reaches its handler unchanged,
    so the statements are scoped by the [req.libraryId] the request came
    with. *)
Theorem branch_routes_gated (req : Request) (s : Session) (u : User)
    (id : string) (name code : option string) :
  req_session req = Some s -> sess_owner s = None -> sess_user s = Some u ->
  user_role u <> "admin" ->
  let forbidden :=
    BranchRoutes.Rejected
      (json_message 403 "Forbidden - Insufficient permissions") in
  (get_branches req = forbidden <->
   ~ (In "manage_branches" (Auth.userPermissions u) \/
      In "manage_library_students" (Auth.userPermissions u))) /\
  (get_branches req <> forbidden ->
   get_branches req
     = BranchRoutes.Handled (BranchRoutes.get_handler select_branches req)) /\
  (~ In "manage_branches" (Auth.userPermissions u) ->
   post_branch name code req = forbidden /\
   put_branch id name code req = forbidden /\
   delete_branch_route id req = forbidden) /\
  (In "manage_branches" (Auth.userPermissions u) ->
   post_branch name code req
     = BranchRoutes.Handled
         (BranchRoutes.post_handler insert_branch name code req) /\
   put_branch id name code req
     = BranchRoutes.Handled
         (BranchRoutes.put_handler update_branch id name code req) /\
   delete_branch_route id req
     = BranchRoutes.Handled
         (BranchRoutes.delete_handler delete_branch id req)).
Proof.
  intros Hs Ho Hu Hrole forbidden. subst forbidden.
  unfold BranchRoutes.get_branches, BranchRoutes.post_branch,
    BranchRoutes.put_branch, BranchRoutes.delete_branch_route,
    BranchRoutes.route, Branches.read_gate, Branches.write_gate,
    Auth.checkPermissions1.
  rewrite !(checkPermissions_user req s u _ "OR" Hs Ho Hu Hrole).
  assert (Hread : Auth.hasPermission
                    ["manage_branches"; "manage_library_students"] "OR"
                    (Auth.userPermissions u) = true <->
                  In "manage_branches" (Auth.userPermissions u) \/
                  In "manage_library_students" (Auth.userPermissions u)).
  { rewrite hasPermission_not_AND by discriminate. unfold held_any. split.
    - intros [p [[<- | [<- | []]] Hin]]; auto.
    - intros [H | H]; eexists; (split; [|exact H]); simpl; auto. }
  assert (Hwrite : Auth.hasPermission ["manage_branches"] "OR"
                     (Auth.userPermissions u) = true <->
                   In "manage_branches" (Auth.userPermissions u)).
  { rewrite hasPermission_singleton. apply includes_In. }
  split; [|split; [|split]].
  - destruct (Auth.hasPermission
                ["manage_branches"; "manage_library_students"] _ _).
    + split; [discriminate|]. intros H. elim H. now apply Hread.
    + split; [|reflexivity]. intros _ H. apply Hread in H. discriminate H.
  - destruct (Auth.hasPermission
                ["manage_branches"; "manage_library_students"] _ _);
      [reflexivity|]. intros H. now elim H.
  - intros Hn. destruct (Auth.hasPermission ["manage_branches"] _ _);
      [|repeat split]. elim Hn. now apply Hwrite.
  - intros Hin. apply Hwrite in Hin. rewrite Hin. repeat split.
Qed.

End BranchRouter.

Lemma branch_routes_gated_witness :
  BranchRoutes.post_branch first_branch (Some "Annex") None
    (request_of desk_session)
  = BranchRoutes.Rejected
      (json_message 403 "Forbidden - Insufficient permissions") /\
  BranchRoutes.get_branches no_branches (request_of desk_session)
  = BranchRoutes.Handled (BranchRoutes.BranchList []).
Proof.
  assert (Hrole : user_role desk_user <> "admin") by discriminate.
  destruct (branch_routes_gated no_branches first_branch no_branch_updated
              no_branch_deleted (request_of desk_session) desk_session
              desk_user "1" (Some "Annex") None
              eq_refl eq_refl eq_refl Hrole) as [_ [Hget [Hw _]]].
  split.
  - apply Hw. simpl. intros [H | []]. discriminate H.
  - rewrite Hget; [reflexivity | discriminate].
Defined.
